(** * bseuParser: a shallow embedding of [bseuParser.py]

    The script fetches the staff index of a university site, follows every
    profile link and turns each profile page into a dictionary with the keys
    [last_name], [first_name], [middle_name], [img] and [degree].

    Conventions of the embedding.
    - A Python [str] is a list of Unicode code points ([str := list N]).
      Literals are written [u "..."], the UTF-8 decoding of a Rocq string.
    - A Python [dict] is a [gmap]; a Python [list] is a [list].
    - A raised exception is the [Err] branch of [result]; the stateful part
      ([Parser] methods) is a state-and-error monad [M] over [machine].
    - [str.lower] and the HTTP layer ([requests.get] followed by the
      [BeautifulSoup] constructor) are library code: they are the Section
      variables [lower] and [http_get]. So is [open]: [open_w path] is the
      exception [open(path, 'w', encoding='utf8')] raises, if any.
    - A parsed page is a [node] tree; the fragment of the bs4 query interface
      the script uses ([find], [find_all], [.img], [.h4], [.br],
      [.next_sibling], [.text], [tag[key]]) is defined over it.
    - The text layout produced by [json.dump] is left out: a written file is
      recorded as the data and the indentation it was dumped with, and as
      whether the dump went through. The file is opened as UTF-8, so the
      dump raises [UnicodeEncodeError] at the first string with a surrogate
      code point and leaves the beginning of its text in the file.
    - The methods come twice: in [M], with their calls of [log] left out,
      and in [L], with them. [L] carries the console: the items printed so
      far and, as [stdout], which items the encoder of [sys.stdout] takes; a
      [print] of an item it does not take raises [UnicodeEncodeError] and
      prints nothing.
    - Faults of the machine the script runs on (a full disk, a closed pipe)
      are not part of the model. *)

From stdpp Require Import gmap strings list.
From Stdlib Require Import NArith ZArith Lia DecimalString.

Local Open Scope N_scope.

(** ** Strings *)

Definition str := list N.

Fixpoint bytes_of (s : string) : list N :=
  match s with
  | EmptyString => []
  | String a s' => Ascii.N_of_ascii a :: bytes_of s'
  end.

(** UTF-8 decoding of well-formed input (one to four bytes per code point). *)
Fixpoint utf8_decode (bs : list N) : str :=
  match bs with
  | [] => []
  | b0 :: r0 =>
    if b0 <? 0x80 then b0 :: utf8_decode r0
    else match r0 with
    | [] => []
    | b1 :: r1 =>
      if b0 <? 0xE0 then ((b0 - 0xC0) * 64 + (b1 - 0x80)) :: utf8_decode r1
      else match r1 with
      | [] => []
      | b2 :: r2 =>
        if b0 <? 0xF0
        then ((b0 - 0xE0) * 4096 + (b1 - 0x80) * 64 + (b2 - 0x80)) :: utf8_decode r2
        else match r2 with
        | [] => []
        | b3 :: r3 =>
          ((b0 - 0xF0) * 262144 + (b1 - 0x80) * 4096 + (b2 - 0x80) * 64 + (b3 - 0x80))
            :: utf8_decode r3
        end
      end
    end
  end.

Definition u (s : string) : str := utf8_decode (bytes_of s).
Arguments u : simpl never.

(** [str.isspace] for one code point: the characters on which a separator-less
    [str.split] cuts. *)
Definition isspace (c : N) : bool :=
  ((0x09 <=? c) && (c <=? 0x0D)) || ((0x1C <=? c) && (c <=? 0x20))
  || (c =? 0x85) || (c =? 0xA0) || (c =? 0x1680)
  || ((0x2000 <=? c) && (c <=? 0x200A))
  || (c =? 0x2028) || (c =? 0x2029) || (c =? 0x202F) || (c =? 0x205F)
  || (c =? 0x3000).

(** [s.split()]: the maximal runs of non-whitespace characters, in order.
    [cur] is the run being read, most recent character first. *)
Fixpoint split_from (cur : str) (s : str) : list str :=
  match s with
  | [] => match cur with [] => [] | _ => [rev cur] end
  | c :: s' =>
    if isspace c
    then match cur with [] => split_from [] s' | _ => rev cur :: split_from [] s' end
    else split_from (c :: cur) s'
  end.

Definition split (s : str) : list str := split_from [] s.

(** [sep.join(parts)] *)
Fixpoint join (sep : str) (parts : list str) : str :=
  match parts with
  | [] => []
  | [p] => p
  | p :: rest => p ++ sep ++ join sep rest
  end.

(** [s.partition(sep)[0]] for a one-character separator: the part of [s]
    before the first occurrence of [sep], all of [s] when there is none. *)
Fixpoint partition_head (sep : N) (s : str) : str :=
  match s with
  | [] => []
  | c :: s' => if c =? sep then [] else c :: partition_head sep s'
  end.

(** A table of [str.lower] over the Basic Latin, Latin-1 and Cyrillic
    blocks, used to run the definitions on concrete inputs. Every theorem
    below is stated for an arbitrary [lower]. *)
Definition lower_cp (c : N) : N :=
  if (0x41 <=? c) && (c <=? 0x5A) then c + 0x20
  else if (0xC0 <=? c) && (c <=? 0xDE) && negb (c =? 0xD7) then c + 0x20
  else if (0x400 <=? c) && (c <=? 0x40F) then c + 0x50
  else if (0x410 <=? c) && (c <=? 0x42F) then c + 0x20
  else c.

Definition lower_table (s : str) : str := map lower_cp s.

(** ** Exceptions and results *)

Inductive exn :=
| AttributeError | KeyError | IndexError | TypeError | ValueError | OSError
| UnicodeEncodeError | RequestException.

Inductive result (A : Type) :=
| Ok (a : A)
| Err (e : exn).
Arguments Ok {A} a.
Arguments Err {A} e.

Global Instance result_ret : MRet result := fun _ a => Ok a.
Global Instance result_bind : MBind result := fun _ _ k r =>
  match r with
  | Ok a => k a
  | Err e => Err e
  end.

(** [l[i]] on a Python list *)
Definition py_nth {A} (l : list A) (i : nat) : result A :=
  match l !! i with
  | Some a => Ok a
  | None => Err IndexError
  end.

(** [l.index(x)]: position of the first element equal to [x]. *)
Fixpoint py_index `{EqDecision A} (l : list A) (x : A) : result nat :=
  match l with
  | [] => Err ValueError
  | y :: l' => if decide (y = x) then Ok 0%nat else i ← py_index l' x; Ok (S i)
  end.

(** ** Records *)

Inductive value :=
| VStr (s : str)
| VInt (n : Z).

(** ** Transformers *)

(** [transform_full_name] *)
Definition transform_full_name (full_name : str) : result (gmap str value) :=
  let names := split full_name in
  names ←
    (if decide (length names = 2%nat)
     then Ok (names ++ [[]])
     else n0 ← py_nth names 0;
          n1 ← py_nth names 1;
          Ok [n0; n1; join (u " ") (drop 2 names)]);
  last_name ← py_nth names 0;
  first_name ← py_nth names 1;
  middle_name ← py_nth names 2;
  Ok ({[ u "last_name" := VStr last_name;
         u "first_name" := VStr first_name;
         u "middle_name" := VStr middle_name ]} : gmap str value).

Definition degrees : list str :=
  [ u "преподаватель";
    u "старший преподаватель";
    u "доцент";
    u "профессор";
    u "ассистент" ].

Section Transformers.

Variable lower : str -> str.

(** [transform_degree] *)
Definition transform_degree (degree_string : str) : result Z :=
  if decide (lower degree_string ∈ degrees)
  then i ← py_index degrees (lower degree_string); Ok (Z.of_nat i)
  else Ok (Z.of_nat (length degrees)).

End Transformers.

(** ** Parsed documents

    A page as [BeautifulSoup(markup, 'html.parser')] builds it: tags with a
    name, an attribute dictionary and contents, and string leaves. Attribute
    values are kept as the page writes them; the tree builder stores the
    values of [class], [accesskey] and [dropzone] as the list of their
    whitespace-separated tokens, which [attr_matches] accounts for. The
    document object itself is the root tag. *)

Inductive string_kind :=
| NavigableString | CData | Comment | Declaration | Doctype
| ProcessingInstruction.

#[warnings="-register-all"]
Inductive node :=
| Tag (name : str) (attrs : gmap str str) (contents : list node)
| NavStr (kind : string_kind) (s : str).

(** A node followed by everything below it, in document order. *)
Fixpoint subtree (n : node) : list node :=
  n :: match n with
       | Tag _ _ contents =>
         (fix below (l : list node) : list node :=
            match l with
            | [] => []
            | c :: l' => subtree c ++ below l'
            end) contents
       | NavStr _ _ => []
       end.

(** [tag.descendants] *)
Definition descendants (n : node) : list node :=
  match n with
  | Tag _ _ contents => flat_map subtree contents
  | NavStr _ _ => []
  end.

Definition cdata_list_attributes : list str :=
  [u "class"; u "accesskey"; u "dropzone"].

(** How a search compares the attribute [key] of a tag with the string
    [against]: a missing attribute matches only the empty string, a
    token-list attribute matches by one of its tokens or by the tokens
    joined with single spaces, any other attribute by equality. *)
Definition attr_matches (attrs : gmap str str) (key against : str) : bool :=
  match attrs !! key with
  | None => bool_decide (against = [])
  | Some v =>
    if bool_decide (key ∈ cdata_list_attributes)
    then bool_decide (against ∈ split v)
         || bool_decide (join (u " ") (split v) = against)
    else bool_decide (v = against)
  end.

(** The search criteria the script uses: a tag name, attributes that must
    match a string, attributes that must be present ([key=True]). *)
Definition matches (name : str) (eq_attrs : list (str * str))
    (has_attrs : list str) (n : node) : bool :=
  match n with
  | Tag nm attrs _ =>
    bool_decide (nm = name)
    && forallb (fun kv => attr_matches attrs kv.1 kv.2) eq_attrs
    && forallb (fun k => bool_decide (is_Some (attrs !! k))) has_attrs
  | NavStr _ _ => false
  end.

(** [tag.find_all(name, eq_attrs, **has_attrs)] *)
Definition find_all (name : str) (eq_attrs : list (str * str))
    (has_attrs : list str) (n : node) : list node :=
  filter (fun d => matches name eq_attrs has_attrs d = true) (descendants n).

(** [tag.find(name, eq_attrs)]: the first result of [find_all], or [None]. *)
Definition find (name : str) (eq_attrs : list (str * str)) (n : node)
    : option node :=
  head (find_all name eq_attrs [] n).

(** [tag[key]] *)
Definition get_item (n : node) (key : str) : result str :=
  match n with
  | Tag _ attrs _ =>
    match attrs !! key with
    | Some v => Ok v
    | None => Err KeyError
    end
  | NavStr _ _ => Err TypeError
  end.

(** [tag.text]: the strings below the tag, comments and declarations left
    out, concatenated. *)
Definition text (n : node) : str :=
  flat_map (fun d => match d with
                     | NavStr NavigableString s | NavStr CData s => s
                     | _ => []
                     end) (descendants n).

(** [tag.br.next_sibling]: for the first [br] tag below [n] in document
    order, the node that follows it among the contents of its parent.
    [None] when there is no [br] below [n], [Some None] when the [br] is the
    last child of its parent. *)
Fixpoint br_next_sibling (n : node) : option (option node) :=
  match n with
  | Tag _ _ contents =>
    (fix scan (l : list node) : option (option node) :=
       match l with
       | [] => None
       | c :: l' =>
         match c with
         | Tag nm _ _ =>
           if bool_decide (nm = u "br") then Some (head l')
           else match br_next_sibling c with
                | Some r => Some r
                | None => scan l'
                end
         | NavStr _ _ => scan l'
         end
       end) contents
  | NavStr _ _ => None
  end.

(** ** Parsers *)

(** Attribute access on [None], the result of a failed [find]. *)
Definition not_none {A} (o : option A) : result A :=
  match o with
  | Some a => Ok a
  | None => Err AttributeError
  end.

(** [parse_staff_links] *)
Definition parse_staff_links (soup : node) (div_id : str) : result (list str) :=
  soup ← not_none (find (u "div") [(u "id", div_id)] soup);
  mapM (fun a => get_item a (u "href")) (find_all (u "a") [] [u "href"] soup).

(** [parse_degree_]. A string node of any kind is a [str] and has
    [partition]. On a tag, [.partition] is [find('partition')]: calling
    [None] raises [TypeError]; calling a tag is [find_all], here for the tag
    name U+00A0, which no tag of a page read by [html.parser] has, so that
    indexing the empty result raises [IndexError]. *)
Definition parse_degree_ (soup : node) : result str :=
  p ← not_none (find (u "p") [(u "class", u "noIndnt")] soup);
  next_sibling ← not_none (br_next_sibling p);
  degree_string ← not_none next_sibling;
  match degree_string with
  | NavStr _ s => Ok (partition_head 0xA0 s)
  | Tag _ _ _ =>
    match find (u "partition") [] degree_string with
    | None => Err TypeError
    | Some _ => Err IndexError
    end
  end.

(** [parse_personal_page] *)
Definition parse_personal_page (soup : node) (div_id : str)
    : result (str * str * str) :=
  soup ← not_none (find (u "div") [(u "id", div_id)] soup);
  img ← match find (u "img") [] soup with
        | Some i => get_item i (u "src")
        | None => Ok []
        end;
  h4 ← not_none (find (u "h4") [] soup);
  let full_name := text h4 in
  degree_string ← parse_degree_ soup;
  Ok (full_name, img, degree_string).

(** ** The [Parser] class *)

Definition Parser_base_url : str := u "http://www.bseu.by/PersonalPages/alphabetic.htm".
Definition personal_page_prefix : str := u "http://www.bseu.by".
Definition staff_div_id : str := u "Pages".
Definition person_div_id : str := u "persinfo".
Definition default_image : str := u "https://mytimetable.live/images/man-user.png".

(** The attributes [__init__] sets. [file_path] is [None] for Python's
    [None] and [False]. *)
Record Parser := {
  base_url : str;
  silent_mode : bool;
  verbose_mode : bool;
  pretty_output : bool;
  file_path : option str;
}.

(** [Parser.__init__]: [base_url or Parser.base_url], and the default
    options overridden by the ones passed. *)
Definition Parser_init (url : option str) (silent verbose pretty : option bool)
    (path : option str) : Parser :=
  {| base_url := match url with Some (c :: r) => c :: r | _ => Parser_base_url end;
     silent_mode := default false silent;
     verbose_mode := default false verbose;
     pretty_output := default false pretty;
     file_path := path |}.

(** The namespace [parse_args] returns, one field per [dest]; an absent
    [-f] leaves [file_path] at [False], here [None]. *)
Record Namespace := {
  ns_file_path : option str;
  ns_silent_mode : bool;
  ns_verbose_mode : bool;
  ns_pretty_output : bool;
}.

(** What one call of [print] writes to the console: a message, or the
    text of a record, laid out by [pprint] in pretty mode and by [str]
    otherwise. *)
Inductive printed :=
| Line (message : str)
| Repr (pretty : bool) (data : gmap str value).

(** ['{}'.format(n)] for a non-negative integer: its decimal digits. *)
Definition decimal (n : nat) : str :=
  u (NilEmpty.string_of_uint (Nat.to_uint n)).

(** ['{}'.format(v)] for a value of a record *)
Definition format_value (v : value) : str :=
  match v with
  | VStr s => s
  | VInt n => u (NilEmpty.string_of_int (Z.to_int n))
  end.

(** A code point the UTF-8 codec refuses to encode: a surrogate. *)
Definition is_surrogate (c : N) : bool := (0xD800 <=? c) && (c <=? 0xDFFF).

(** [s.encode('utf8')] goes through. *)
Definition utf8_encodable (s : str) : bool :=
  forallb (fun c => negb (is_surrogate c)) s.

(** Whether [json.dump(result, file, ensure_ascii=False)] can write all of
    its text to a UTF-8 file: the brackets, separators and numbers are
    ASCII, and every key and every string value is written as it is, apart
    from ASCII escapes. *)
Definition value_encodable (v : value) : bool :=
  match v with
  | VStr s => utf8_encodable s
  | VInt _ => true
  end.

Definition record_encodable (record : gmap str value) : bool :=
  forallb (fun kv => utf8_encodable kv.1 && value_encodable kv.2)
    (map_to_list record).

Definition json_encodable (result : list (gmap str value)) : bool :=
  forallb record_encodable result.

(** What [json.dump] was given, and whether it wrote all of it: a dump that
    raised has left the beginning of its text, up to the first string it
    could not encode. *)
Record dump := {
  dump_data : list (gmap str value);
  dump_indent : option nat;
  dump_complete : bool;
}.

(** [accepted_prefix stdout items]: the items in front of the first one that
    [stdout] does not take. *)
Fixpoint accepted_prefix (stdout : printed -> bool) (items : list printed)
    : list printed :=
  match items with
  | [] => []
  | x :: items' => if stdout x then x :: accepted_prefix stdout items' else []
  end.

(** A console that takes every item, as one opened with
    [errors='backslashreplace'] does. *)
Definition unrestricted (x : printed) : bool := true.

(** A UTF-8 console with the default error handler: a message is printed
    as it is, and is refused if it holds a surrogate; the text of a record
    comes from [repr], which writes such a code point as an ASCII escape. *)
Definition utf8_console (x : printed) : bool :=
  match x with
  | Line message => utf8_encodable message
  | Repr _ _ => true
  end.

(** The state the methods act on: the world outside the program, the URLs
    requested so far, the files written, and the [results] attribute of the
    [Parser] object ([None] while it has not been assigned). *)
Record machine (world : Type) := {
  net : world;
  requested : list str;
  files : gmap str dump;
  results : option (list (gmap str value));
}.
Arguments Build_machine {world}.
Arguments net {world}.
Arguments requested {world}.
Arguments files {world}.
Arguments results {world}.

(** ** Vocabulary of the statements *)

(** [s.strip()]: [s] without its leading and trailing whitespace. The
    script never calls it; it spells out the reading of the degree lookup
    in which the label is trimmed before it is compared. *)
Fixpoint lstrip (s : str) : str :=
  match s with
  | [] => []
  | c :: s' => if isspace c then lstrip s' else s
  end.

Definition strip (s : str) : str := reverse (lstrip (reverse (lstrip s))).

(** The degree lookup with a trimmed label: the position of
    [strip (lower s)] in [degrees], the length of [degrees] if it is not
    there. *)
Definition trimmed_degree (lower : str -> str) (s : str) : Z :=
  match list_find (fun label => label = strip (lower s)) degrees with
  | Some (i, _) => Z.of_nat i
  | None => Z.of_nat (length degrees)
  end.

Definition tag_named (name : str) (n : node) : bool :=
  match n with
  | Tag nm _ _ => bool_decide (nm = name)
  | NavStr _ _ => false
  end.

Definition attr (key : str) (n : node) : option str :=
  match n with
  | Tag _ attrs _ => attrs !! key
  | NavStr _ _ => None
  end.

(** An element that carries the identifier [id]. *)
Definition has_id (id : str) (n : node) : bool :=
  bool_decide (attr (u "id") n = Some id).

(** The link target of an anchor, [None] for any other node and for an
    anchor without one. *)
Definition anchor_href (n : node) : option str :=
  if tag_named (u "a") n then attr (u "href") n else None.

(** A token of [str.split]: a non-empty string without whitespace. *)
Definition is_token (t : str) : Prop :=
  t <> [] /\ Forall (fun c => isspace c = false) t.

(** ** Sample pages *)

Definition anchor (href : str) : node :=
  Tag (u "a") {[ u "href" := href ]} [].

Definition document (contents : list node) : node :=
  Tag (u "[document]") ∅ contents.

(** A [Pages] container that holds exactly two linked entries. *)
Definition two_anchor_container : node :=
  Tag (u "div") {[ u "id" := u "Pages" ]}
    [anchor (u "/p/a.htm"); anchor (u "/p/b.htm")].

(** A [Pages] container with a nested entry, an anchor without a link
    target and a second entry. *)
Definition index_container : node :=
  Tag (u "div") {[ u "id" := u "Pages" ]}
    [ Tag (u "p") ∅ [anchor (u "/p/a.htm")];
      Tag (u "a") {[ u "name" := u "top" ]} [];
      anchor (u "/p/b.htm") ].

Definition index_page : node := document [index_container].

(** Two entries inside a [span] that carries the container id. *)
Definition span_container : node :=
  Tag (u "span") {[ u "id" := u "Pages" ]}
    [anchor (u "/p/a.htm"); anchor (u "/p/b.htm")].

Definition span_index_page : node := document [span_container].

(** An index page without any container. *)
Definition bare_index_page : node :=
  document [Tag (u "p") ∅ [anchor (u "/p/a.htm")]].

(** An index page whose container is empty. *)
Definition empty_index_page : node :=
  document [Tag (u "div") {[ u "id" := u "Pages" ]} []].

(** The info container of a profile page; [imgs] are the nodes put in
    front of the heading. *)
Definition profile_container (imgs : list node) (full_name degree : str)
    : node :=
  Tag (u "div") {[ u "id" := u "persinfo" ]}
    (imgs ++
     [ Tag (u "h4") ∅ [NavStr NavigableString full_name];
       Tag (u "p") {[ u "class" := u "noIndnt" ]}
         [ NavStr NavigableString (u "Кафедра");
           Tag (u "br") ∅ [];
           NavStr NavigableString (degree ++ [0xA0] ++ u "кафедры") ] ]).

Definition image (src : str) : node :=
  Tag (u "img") {[ u "src" := src ]} [].

Definition container_a : node :=
  profile_container [image (u "/img/a.jpg")] (u "Иванов Иван Иванович")
    (u "Доцент").
Definition container_b : node :=
  profile_container [] (u "Петров Пётр") (u "Лаборант").
Definition container_empty_src : node :=
  profile_container [image []] (u "Петров Пётр") (u "Лаборант").
Definition container_one_name : node :=
  profile_container [] (u "Иванов") (u "Доцент").

Definition record_a : gmap str value :=
  {[ u "last_name" := VStr (u "Иванов");
     u "first_name" := VStr (u "Иван");
     u "middle_name" := VStr (u "Иванович");
     u "img" := VStr (u "http://www.bseu.by/img/a.jpg");
     u "degree" := VInt 2 ]}.

Definition record_b : gmap str value :=
  {[ u "last_name" := VStr (u "Петров");
     u "first_name" := VStr (u "Пётр");
     u "middle_name" := VStr [];
     u "img" := VStr (u "https://mytimetable.live/images/man-user.png");
     u "degree" := VInt 5 ]}.

Definition url_a : str := u "http://www.bseu.by/p/a.htm".
Definition url_b : str := u "http://www.bseu.by/p/b.htm".

(** A world that serves a fixed table of pages and never changes. *)
Definition serve (web : gmap str node) (url : str) (w : unit)
    : result node * unit :=
  match web !! url with
  | Some page => (Ok page, w)
  | None => (Err RequestException, w)
  end.

(** The site with the index page [index] and the second profile [b]. *)
Definition site (index : node) (b : node) : gmap str node :=
  {[ Parser_base_url := index;
     url_a := document [container_a];
     url_b := document [b] ]}.

Definition quiet_parser (path : option str) : Parser :=
  Parser_init None None None None path.

Definition always_open (path : str) : option exn := None.
Definition never_open (path : str) : option exn := Some OSError.

(** A profile whose image has no source attribute. *)
Definition container_no_src : node :=
  profile_container [Tag (u "img") ∅ []] (u "Петров Пётр") (u "Лаборант").

Definition verbose_parser : Parser :=
  Parser_init None None (Some true) None None.
Definition silent_parser : Parser :=
  Parser_init None (Some true) (Some true) None (Some (u "staff.json")).

Definition sample_args : Namespace :=
  {| ns_file_path := Some (u "staff.json"); ns_silent_mode := false;
     ns_verbose_mode := false; ns_pretty_output := true |}.

(** The state before anything happened, and after the requests [urls]. *)
Definition after_requests (urls : list str) : machine unit :=
  {| net := tt; requested := urls; files := ∅; results := None |}.

Definition fresh : machine unit := after_requests [].

(** The state after a complete run over the two sample profiles. *)
Definition after_run (written : gmap str dump) : machine unit :=
  {| net := tt; requested := [Parser_base_url; url_a; url_b];
     files := written; results := Some [record_a; record_b] |}.

(** The output file of a complete run, dumped with [indent]. *)
Definition staff_file (indent : option nat) : gmap str dump :=
  {[ u "staff.json" :=
       {| dump_data := [record_a; record_b]; dump_indent := indent;
          dump_complete := true |} ]}.

(** The console after a verbose run over the two sample profiles. *)
Definition verbose_console : list printed :=
  [ Line (u "Fetching staff list from" ++ [10] ++ u "  " ++ Parser_base_url);
    Line (u "Fetching a staff list from" ++ [10] ++ u "  " ++ Parser_base_url);
    Line (u "Fetched a staff list containing 2 entries");
    Line [];
    Line (u "2 staff members are found. Starting accumulating data...");
    Line (u "Fetching the staff member #1 from" ++ [10] ++ u "  " ++ url_a);
    Line (u "Fetched a staff member: Иванов");
    Repr false record_a;
    Line (u "Fetching the staff member #2 from" ++ [10] ++ u "  " ++ url_b);
    Line (u "Fetched a staff member: Петров");
    Repr false record_b ].

(** The console after a run in the default mode that wrote its file. *)
Definition default_console : list printed :=
  [ Line (u "Fetching staff list from" ++ [10] ++ u "  " ++ Parser_base_url);
    Line (u "Fetching a staff list from" ++ [10] ++ u "  " ++ Parser_base_url);
    Line (u "Fetched a staff list containing 2 entries");
    Line [];
    Line (u "2 staff members are found. Starting accumulating data...");
    Line (u "Fetching the staff member #1 from" ++ [10] ++ u "  " ++ url_a);
    Line (u "Fetching the staff member #2 from" ++ [10] ++ u "  " ++ url_b);
    Line (u "Written staff.json") ].

(** A parser object that already went through a run. *)
Definition used (urls : list str) : machine unit :=
  {| net := tt; requested := urls; files := ∅; results := Some [record_a] |}.

(** A profile whose heading starts with a lone surrogate code point, and
    its record. *)
Definition container_surrogate : node :=
  profile_container [] ([0xD800] ++ u " Пётр") (u "Лаборант").

Definition record_surrogate : gmap str value :=
  {[ u "last_name" := VStr [0xD800];
     u "first_name" := VStr (u "Пётр");
     u "middle_name" := VStr [];
     u "img" := VStr (u "https://mytimetable.live/images/man-user.png");
     u "degree" := VInt 5 ]}.


(** The console of a verbose run that stops when it has fetched the second
    profile. *)
Definition interrupted_console : list printed :=
  [ Line (u "Fetching staff list from" ++ [10] ++ u "  " ++ Parser_base_url);
    Line (u "Fetching a staff list from" ++ [10] ++ u "  " ++ Parser_base_url);
    Line (u "Fetched a staff list containing 2 entries");
    Line [];
    Line (u "2 staff members are found. Starting accumulating data...");
    Line (u "Fetching the staff member #1 from" ++ [10] ++ u "  " ++ url_a);
    Line (u "Fetched a staff member: Иванов");
    Repr false record_a;
    Line (u "Fetching the staff member #2 from" ++ [10] ++ u "  " ++ url_b) ].

(** The console of a run in the default mode that fetched both profiles
    and wrote no file. *)
Definition fetched_console : list printed :=
  [ Line (u "Fetching staff list from" ++ [10] ++ u "  " ++ Parser_base_url);
    Line (u "Fetching a staff list from" ++ [10] ++ u "  " ++ Parser_base_url);
    Line (u "Fetched a staff list containing 2 entries");
    Line [];
    Line (u "2 staff members are found. Starting accumulating data...");
    Line (u "Fetching the staff member #1 from" ++ [10] ++ u "  " ++ url_a);
    Line (u "Fetching the staff member #2 from" ++ [10] ++ u "  " ++ url_b) ].

(** The console of a run in the default mode that found no links and
    wrote its file. *)
Definition empty_console : list printed :=
  [ Line (u "Fetching staff list from" ++ [10] ++ u "  " ++ Parser_base_url);
    Line (u "Fetching a staff list from" ++ [10] ++ u "  " ++ Parser_base_url);
    Line (u "Fetched a staff list containing 0 entries");
    Line [];
    Line (u "0 staff members are found. Starting accumulating data...");
    Line (u "Written staff.json") ].

Section Pipeline.

Variable lower : str -> str.

(** The outside of the program: [http_get url w] is what
    [BeautifulSoup(requests.get(url).content, 'html.parser')] evaluates to in
    the world [w], with the world after the request; [open_w path] is the
    exception [open(path, 'w', encoding='utf8')] raises, [None] when it
    opens the file: an [OSError] from the operating system, a [ValueError]
    for a path with a null character, a [UnicodeEncodeError] for a path the
    file system encoding cannot express. *)
Variable world : Type.
Variable http_get : str -> world -> result node * world.
Variable open_w : str -> option exn.

Local Abbreviation machine := (machine world).

Definition M (A : Type) : Type := machine -> result A * machine.

#[local] Instance M_ret : MRet M := fun _ a m => (Ok a, m).
#[local] Instance M_bind : MBind M := fun _ _ k c m =>
  match c m with
  | (Ok a, m') => k a m'
  | (Err e, m') => (Err e, m')
  end.

Definition lift {A} (r : result A) : M A := fun m => (r, m).

(** [get_html_parser] *)
Definition get_html_parser (url : str) : M node := fun m =>
  let (r, w) := http_get url (net m) in
  (r, {| net := w; requested := requested m ++ [url];
         files := files m; results := results m |}).

(** [Parser.get_staff_list] *)
Definition get_staff_list (self : Parser) : M (list str) :=
  soup ← get_html_parser (base_url self);
  lift (parse_staff_links soup staff_div_id).

(** [Parser.get_personal_page]; [index] only appears in the log line. *)
Definition get_personal_page (self : Parser) (personal_page_suffix : str)
    (index : nat) : M (gmap str value) :=
  let url := personal_page_prefix ++ personal_page_suffix in
  soup ← get_html_parser url;
  '(full_name, img, degree_string) ← lift (parse_personal_page soup person_div_id);
  result ← lift (transform_full_name full_name);
  let personal_image :=
    match img with
    | _ :: _ => personal_page_prefix ++ img
    | [] => default_image
    end in
  degree ← lift (transform_degree lower degree_string);
  mret (<[u "degree" := VInt degree]> (<[u "img" := VStr personal_image]> result)).

(** [Parser.get_personal_data]: a generator, one suspended computation per
    link, each run when the consumer asks for the next item. *)
Definition get_personal_data (self : Parser) (staff_links : list str)
    : list (M (gmap str value)) :=
  map (fun link =>
         index ← lift (py_index staff_links link);
         get_personal_page self link index) staff_links.

(** The loop of [Parser.run]: [for result in parser: results.append(result)] *)
Fixpoint run_loop (parser : list (M (gmap str value)))
    (results : list (gmap str value)) : M (list (gmap str value)) :=
  match parser with
  | [] => mret results
  | next :: parser' =>
    result ← next;
    run_loop parser' (results ++ [result])
  end.

(** [self.results], an [AttributeError] while the attribute is not set *)
Definition get_results : M (list (gmap str value)) := fun m =>
  match results m with
  | Some r => (Ok r, m)
  | None => (Err AttributeError, m)
  end.

(** [self.results = r] *)
Definition set_results (r : list (gmap str value)) : M unit := fun m =>
  (Ok tt, {| net := net m; requested := requested m; files := files m;
             results := Some r |}).

(** [write_result], the function local to [Parser.write], without its log
    line: [open] truncates the file, [json.dump] writes into it, and the
    [with] block closes it whether or not the dump went through. *)
Definition write_result (self : Parser) (filename : str)
    (result : list (gmap str value)) : M unit := fun m =>
  match open_w filename with
  | Some e => (Err e, m)
  | None =>
    (if json_encodable result then Ok tt else Err UnicodeEncodeError,
     {| net := net m; requested := requested m;
        files := <[filename :=
                     {| dump_data := result;
                        dump_indent := if pretty_output self
                                       then Some 2%nat else None;
                        dump_complete := json_encodable result |}]> (files m);
        results := results m |})
  end.

(** [Parser.write] *)
Definition write (self : Parser) (filepath : str)
    (results : list (gmap str value)) : M unit :=
  results ← match results with
            | [] => get_results
            | _ :: _ => mret results
            end;
  write_result self filepath results.

(** [Parser.run] *)
Definition run (self : Parser) : M unit :=
  staff_links ← get_staff_list self;
  let results := [] in
  let parser := get_personal_data self staff_links in
  results ← run_loop parser results;
  _ ← match file_path self with
      | Some (c :: r) => write self (c :: r) results
      | _ => mret tt
      end;
  set_results results.

(** [main], from the parsed arguments on: [Parser(options=vars(args))]
    followed by [run]. *)
Definition main (args : Namespace) : M unit :=
  let bseu_parser :=
    Parser_init None (Some (ns_silent_mode args)) (Some (ns_verbose_mode args))
      (Some (ns_pretty_output args)) (ns_file_path args) in
  run bseu_parser.

(** [collected self links rs m m']: starting in [m], fetching the profile
    of each of [links] in turn succeeds, yields the records [rs] in the same
    order, and ends in [m']. *)
Inductive collected (self : Parser)
    : list str -> list (gmap str value) -> machine -> machine -> Prop :=
| collected_nil m : collected self [] [] m m
| collected_cons link links r rs index m m1 m2 :
    get_personal_page self link index m = (Ok r, m1) ->
    collected self links rs m1 m2 ->
    collected self (link :: links) (r :: rs) m m2.

(** One item of the generator [get_personal_data]. *)
Definition personal_page_of (self : Parser) (staff_links : list str)
    (link : str) : M (gmap str value) :=
  index ← lift (py_index staff_links link);
  get_personal_page self link index.

(** Going from [m] to [m'] requests exactly [urls], in that order, writes
    no file and leaves the [results] attribute as it was. *)
Definition requests_only (urls : list str) (m m' : machine) : Prop :=
  requested m' = requested m ++ urls
  /\ files m' = files m
  /\ results m' = results m.

(** The five keys of a staff record. *)
Definition record_keys : gset str :=
  {[ u "last_name"; u "first_name"; u "middle_name"; u "img"; u "degree" ]}.

(** ** The console

    The methods once more, with their calls of [log]: [L] adds to the state
    [M] acts on the items printed so far, and reads [stdout], which tells
    for every item whether the encoder of [sys.stdout] takes its text. *)

Definition L (A : Type) : Type :=
  (printed -> bool) -> machine -> list printed
  -> result A * machine * list printed.

#[local] Instance L_ret : MRet L := fun _ a stdout m out => (Ok a, m, out).
#[local] Instance L_bind : MBind L := fun _ _ k c stdout m out =>
  match c stdout m out with
  | (Ok a, m', out') => k a stdout m' out'
  | (Err e, m', out') => (Err e, m', out')
  end.

(** A computation that prints nothing *)
Definition quiet {A} (c : M A) : L A := fun stdout m out =>
  let (r, m') := c m in (r, m', out).

(** [print(x)]: the text of [x] is encoded as a whole before any of it is
    written. *)
Definition print (x : printed) : L unit := fun stdout m out =>
  if stdout x then (Ok tt, m, out ++ [x]) else (Err UnicodeEncodeError, m, out).

(** [Parser.log_data] *)
Definition log_data (self : Parser) (data : gmap str value) : L unit :=
  print (Repr (pretty_output self) data).

(** [Parser.log]; [output] is [None] when the argument is left out, and a
    dictionary counts as absent when it is empty. *)
Definition log (self : Parser) (message : str)
    (output : option (gmap str value)) : L unit :=
  if silent_mode self then mret tt
  else match output with
       | Some data =>
         if decide (data = ∅) then print (Line message)
         else if verbose_mode self
              then _ ← print (Line message); log_data self data
              else mret tt
       | None => print (Line message)
       end.

(** The messages, as [str.format] fills them in *)
Definition msg_fetching_list (self : Parser) : str :=
  u "Fetching a staff list from" ++ [10] ++ u "  " ++ base_url self.
Definition msg_fetched_list (staff_members : list str) : str :=
  u "Fetched a staff list containing " ++ decimal (length staff_members)
  ++ u " entries".
Definition msg_fetching_member (index : nat) (url : str) : str :=
  u "Fetching the staff member #" ++ decimal (index + 1) ++ u " from"
  ++ [10] ++ u "  " ++ url.
Definition msg_fetched_member (last_name : value) : str :=
  u "Fetched a staff member: " ++ format_value last_name.
Definition msg_written (filename : str) : str := u "Written " ++ filename.
Definition msg_fetching (self : Parser) : str :=
  u "Fetching staff list from" ++ [10] ++ u "  " ++ base_url self.
Definition msg_found (staff_links : list str) : str :=
  decimal (length staff_links)
  ++ u " staff members are found. Starting accumulating data...".

(** [Parser.get_staff_list] with its log lines *)
Definition get_staff_list_logged (self : Parser) : L (list str) :=
  _ ← log self (msg_fetching_list self) None;
  soup ← quiet (get_html_parser (base_url self));
  staff_members ← quiet (lift (parse_staff_links soup staff_div_id));
  _ ← log self (msg_fetched_list staff_members) None;
  mret staff_members.

(** [Parser.get_personal_page] with its log lines *)
Definition get_personal_page_logged (self : Parser)
    (personal_page_suffix : str) (index : nat) : L (gmap str value) :=
  let url := personal_page_prefix ++ personal_page_suffix in
  _ ← log self (msg_fetching_member index url) None;
  soup ← quiet (get_html_parser url);
  '(full_name, img, degree_string) ←
    quiet (lift (parse_personal_page soup person_div_id));
  result ← quiet (lift (transform_full_name full_name));
  let personal_image :=
    match img with
    | _ :: _ => personal_page_prefix ++ img
    | [] => default_image
    end in
  degree ← quiet (lift (transform_degree lower degree_string));
  let result :=
    <[u "degree" := VInt degree]> (<[u "img" := VStr personal_image]> result) in
  last_name ← quiet (lift match result !! u "last_name" with
                          | Some v => Ok v
                          | None => Err KeyError
                          end);
  _ ← log self (msg_fetched_member last_name) (Some result);
  mret result.

(** [Parser.get_personal_data] with its log lines *)
Definition get_personal_data_logged (self : Parser) (staff_links : list str)
    : list (L (gmap str value)) :=
  map (fun link =>
         index ← quiet (lift (py_index staff_links link));
         get_personal_page_logged self link index) staff_links.

(** The loop of [Parser.run] over the logging generator *)
Fixpoint run_loop_logged (parser : list (L (gmap str value)))
    (results : list (gmap str value)) : L (list (gmap str value)) :=
  match parser with
  | [] => mret results
  | next :: parser' =>
    result ← next;
    run_loop_logged parser' (results ++ [result])
  end.

(** [write_result] with its log line, printed once the file is closed *)
Definition write_result_logged (self : Parser) (filename : str)
    (result : list (gmap str value)) : L unit :=
  _ ← quiet (write_result self filename result);
  log self (msg_written filename) None.

(** [Parser.write] with its log line *)
Definition write_logged (self : Parser) (filepath : str)
    (results : list (gmap str value)) : L unit :=
  results ← match results with
            | [] => quiet get_results
            | _ :: _ => mret results
            end;
  write_result_logged self filepath results.

(** [Parser.run] with its log lines *)
Definition run_logged (self : Parser) : L unit :=
  _ ← log self (msg_fetching self) None;
  staff_links ← get_staff_list_logged self;
  _ ← log self [] None;
  _ ← log self (msg_found staff_links) None;
  let results := [] in
  let parser := get_personal_data_logged self staff_links in
  results ← run_loop_logged parser results;
  _ ← match file_path self with
      | Some (c :: r) => write_logged self (c :: r) results
      | _ => mret tt
      end;
  quiet (set_results results).

(** What one call of [log] prints. *)
Definition log_lines (self : Parser) (message : str)
    (output : option (gmap str value)) : list printed :=
  if silent_mode self then []
  else match output with
       | Some data =>
         if decide (data = ∅) then [Line message]
         else if verbose_mode self
              then [Line message; Repr (pretty_output self) data]
              else []
       | None => [Line message]
       end.

(** The records among the printed items, in the order they were printed. *)
Definition printed_records (out : list printed) : list (gmap str value) :=
  omap (fun x => match x with Repr _ data => Some data | Line _ => None end) out.

(** What fetching one profile prints, given how the fetch ended. *)
Definition page_lines (self : Parser) (link : str) (index : nat)
    (r : result (gmap str value)) : list printed :=
  log_lines self (msg_fetching_member index (personal_page_prefix ++ link)) None
  ++ match r with
     | Ok record =>
       match record !! u "last_name" with
       | Some last_name =>
         log_lines self (msg_fetched_member last_name) (Some record)
       | None => []
       end
     | Err _ => []
     end.

(** One item of the logging generator. *)
Definition personal_page_logged_of (self : Parser) (staff_links : list str)
    (link : str) : L (gmap str value) :=
  index ← quiet (lift (py_index staff_links link));
  get_personal_page_logged self link index.

(** The number of items one profile adds to the console. *)
Definition lines_per_page (self : Parser) : nat :=
  if silent_mode self then 0 else if verbose_mode self then 3 else 1.

(** What [c] prints from the state [m] on a console that takes every
    item. *)
Definition printed_by {A} (c : L A) (m : machine) : list printed :=
  (c unrestricted m []).2.

(** [c] treats the console as [print] does: on any [stdout] it does what it
    does on a console that takes every item, up to the first item [stdout]
    does not take, where it stops with [UnicodeEncodeError]; and what was on
    the console before stays in front. *)
Definition uniform {A} (c : L A) : Prop :=
  forall (stdout : printed -> bool) (m : machine) (out : list printed),
    match c unrestricted m [] with
    | (r, m', new) =>
      if forallb stdout new
      then c stdout m out = (r, m', out ++ new)
      else exists m'', c stdout m out
                       = (Err UnicodeEncodeError, m'',
                          out ++ accepted_prefix stdout new)
    end.



(** ** Strings and lists *)

Lemma degrees_NoDup : NoDup degrees.
Proof. apply (bool_decide_unpack _). vm_compute. reflexivity. Qed.

Lemma py_index_lookup `{EqDecision A} (l : list A) (i : nat) (x : A) :
  NoDup l -> l !! i = Some x -> py_index l x = Ok i.
Proof.
  intros Hnd. revert i. induction Hnd as [|y l Hy Hnd IH]; intros i Hi.
  - by rewrite lookup_nil in Hi.
  - destruct i as [|i]; simpl in *.
    + injection Hi as ->. by rewrite decide_True.
    + rewrite decide_False.
      * by rewrite (IH i Hi).
      * intros ->. apply Hy. by eapply list_elem_of_lookup_2.
Qed.

Lemma py_index_elem `{EqDecision A} (l : list A) (x : A) :
  x ∈ l -> exists i, py_index l x = Ok i.
Proof.
  induction l as [|y l IH]; intros Hx.
  - by apply not_elem_of_nil in Hx.
  - simpl. destruct (decide (y = x)) as [|Hne]; [by eexists|].
    apply elem_of_cons in Hx as [->|Hx]; [done|].
    destruct (IH Hx) as [i ->]. by eexists.
Qed.

(** C1 (as the code has it, without trimming): [transform_degree]
    lower-cases its argument and looks the result up, as it is, in the five
    labels of [degrees]. When the lower-cased argument is the label at
    position [i] the answer is [i]; when it is none of the labels the answer
    is 5. *)
Theorem transform_degree_position (s : str) :
  (forall (i : nat) (label : str),
     degrees !! i = Some label -> lower s = label ->
     transform_degree lower s = Ok (Z.of_nat i))
  /\ (lower s ∉ degrees -> transform_degree lower s = Ok 5%Z).
Proof.
  unfold transform_degree. split.
  - intros i label Hi Hs.
    rewrite decide_True by (rewrite Hs; by eapply list_elem_of_lookup_2).
    rewrite Hs, (py_index_lookup degrees i label degrees_NoDup Hi). done.
  - intros Hs. by rewrite decide_False.
Qed.

(** Joining with a one-character separator writes the first part and then
    every further part with the separator in front of it. *)
Lemma join_separator (c : N) (p : str) (parts : list str) :
  join [c] (p :: parts) = p ++ concat (map (cons c) parts).
Proof.
  revert p. induction parts as [|q parts IH]; intros p.
  - simpl. by rewrite app_nil_r.
  - change (join [c] (p :: q :: parts)) with (p ++ [c] ++ join [c] (q :: parts)).
    by rewrite IH.
Qed.

(** C2: when the full name splits into the tokens [t0 :: t1 :: rest],
    [transform_full_name] returns [last_name = t0], [first_name = t1], and
    [middle_name] empty if [rest] is empty, else the tokens of [rest] joined
    by single spaces: the first of them, followed by each further one with
    one space (U+0020) in front of it. *)
Theorem transform_full_name_tokens (s t0 t1 : str) (rest : list str) :
  split s = t0 :: t1 :: rest ->
  transform_full_name s =
  Ok {[ u "last_name" := VStr t0;
        u "first_name" := VStr t1;
        u "middle_name" := VStr match rest with
                                | [] => []
                                | t2 :: more =>
                                  t2 ++ concat (map (cons 0x20) more)
                                end ]}.
Proof.
  intros Hs. unfold transform_full_name. rewrite Hs.
  destruct rest as [|t2 rest].
  - rewrite decide_True by done. done.
  - rewrite decide_False by (simpl; lia).
    change (join (u " ") (drop 2 (t0 :: t1 :: t2 :: rest)))
      with (join [0x20] (t2 :: rest)).
    by rewrite join_separator.
Qed.

(** C3: a full name with fewer than two tokens makes
    [transform_full_name] raise [IndexError]. *)
Theorem transform_full_name_short (s : str) :
  (length (split s) < 2)%nat -> transform_full_name s = Err IndexError.
Proof.
  intros Hlen. unfold transform_full_name.
  destruct (split s) as [|t0 [|t1 rest]]; simpl in Hlen; [done|done|lia].
Qed.

(** ** Searching a page *)

Lemma head_filter_split {A} (P : A -> Prop) `{forall x, Decision (P x)}
    (l before after : list A) (x : A) :
  l = before ++ x :: after -> P x -> Forall (fun y => ~ P y) before ->
  head (filter P l) = Some x.
Proof.
  intros -> Hx Hbefore. induction Hbefore as [|y before Hy _ IH]; simpl.
  - by rewrite filter_cons_True.
  - by rewrite filter_cons_False.
Qed.

Lemma head_filter_None {A} (P : A -> Prop) `{forall x, Decision (P x)}
    (l : list A) :
  Forall (fun y => ~ P y) l -> head (filter P l) = None.
Proof.
  induction 1 as [|y l Hy _ IH]; [done|]. by rewrite filter_cons_False.
Qed.

Lemma matches_div_id (div_id : str) (n : node) :
  div_id <> [] ->
  matches (u "div") [(u "id", div_id)] [] n
  = tag_named (u "div") n && has_id div_id n.
Proof.
  intros Hid. destruct n as [nm attrs contents|kind s]; [|done].
  unfold matches, has_id, attr, attr_matches, tag_named. simpl.
  rewrite !andb_true_r. f_equal.
  destruct (attrs !! u "id") as [v|].
  - apply bool_decide_ext. split; congruence.
  - rewrite !bool_decide_eq_false_2; congruence.
Qed.

Lemma anchor_href_matches (c : node) :
  match anchor_href c with
  | Some v => matches (u "a") [] [u "href"] c = true
              /\ get_item c (u "href") = Ok v
  | None => matches (u "a") [] [u "href"] c = false
  end.
Proof.
  destruct c as [nm attrs contents|kind s]; [|done].
  unfold anchor_href, matches, tag_named, attr, get_item, forallb.
  rewrite !andb_true_r.
  destruct (bool_decide (nm = u "a")); [|done].
  destruct (attrs !! u "href") as [v|] eqn:Hv; simpl.
  - by split.
  - done.
Qed.

Lemma find_all_hrefs (l : list node) :
  mapM (fun a => get_item a (u "href"))
       (filter (fun d => matches (u "a") [] [u "href"] d = true) l)
  = Ok (omap anchor_href l).
Proof.
  induction l as [|c l IH]; [done|].
  assert (omap anchor_href (c :: l)
          = match anchor_href c with
            | Some v => v :: omap anchor_href l
            | None => omap anchor_href l
            end) as -> by done.
  pose proof (anchor_href_matches c) as Hc.
  destruct (anchor_href c) as [v|].
  - destruct Hc as [Hc Hv]. rewrite filter_cons_True by done.
    assert (forall f (x : node) k,
              mapM (M:=result) (B:=str) f (x :: k)
              = (y ← f x; r ← mapM f k; mret (y :: r))) as -> by done.
    rewrite IH, Hv. done.
  - rewrite filter_cons_False by (rewrite Hc; done). exact IH.
Qed.

(** C4 (with the container the code looks for): let [container] be the
    first node of the page, in document order, that is a [div] carrying the
    non-empty identifier [div_id]. Then [parse_staff_links] returns the link
    targets of the anchors below [container], in document order, anchors
    without a link target left out. *)
Theorem parse_staff_links_hrefs (doc container : node) (div_id : str)
    (before after : list node) :
  div_id <> [] ->
  descendants doc = before ++ container :: after ->
  tag_named (u "div") container && has_id div_id container = true ->
  Forall (fun n => tag_named (u "div") n && has_id div_id n = false) before ->
  parse_staff_links doc div_id = Ok (omap anchor_href (descendants container)).
Proof.
  intros Hid Hdoc Hc Hbefore. unfold parse_staff_links, find, find_all.
  rewrite (head_filter_split _ _ before after container Hdoc).
  - simpl. apply find_all_hrefs.
  - by rewrite matches_div_id.
  - eapply Forall_impl; [exact Hbefore|]. intros n Hn.
    rewrite matches_div_id by done. by rewrite Hn.
Qed.

(** On a page where no node carries the non-empty identifier [div_id],
    the search for the container returns [None] and [parse_staff_links]
    raises [AttributeError]. *)
Lemma parse_staff_links_no_container (doc : node) (div_id : str) :
  div_id <> [] ->
  Forall (fun n => has_id div_id n = false) (descendants doc) ->
  parse_staff_links doc div_id = Err AttributeError.
Proof.
  intros Hid Hnone. unfold parse_staff_links, find, find_all.
  rewrite head_filter_None; [done|].
  eapply Forall_impl; [exact Hnone|]. intros n Hn.
  rewrite matches_div_id by done. rewrite Hn, andb_false_r. done.
Qed.

(** ** The state-and-error monad *)

Lemma bind_Ok {A B} (c : M A) (k : A -> M B) (m m1 : machine) (a : A) :
  c m = (Ok a, m1) -> (c ≫= k) m = k a m1.
Proof. intros Hc. unfold mbind, M_bind. by rewrite Hc. Qed.

Lemma bind_Err {A B} (c : M A) (k : A -> M B) (m m1 : machine) (e : exn) :
  c m = (Err e, m1) -> (c ≫= k) m = (Err e, m1).
Proof. intros Hc. unfold mbind, M_bind. by rewrite Hc. Qed.

Lemma bind_Ok_inv {A B} (c : M A) (k : A -> M B) (m m2 : machine) (b : B) :
  (c ≫= k) m = (Ok b, m2) ->
  exists a m1, c m = (Ok a, m1) /\ k a m1 = (Ok b, m2).
Proof.
  unfold mbind, M_bind. destruct (c m) as [[a|e] m1]; [|done].
  intros Hk. by exists a, m1.
Qed.

Lemma requests_only_refl (m : machine) : requests_only [] m m.
Proof. unfold requests_only. by rewrite app_nil_r. Qed.

Lemma requests_only_trans (us vs : list str) (m m1 m2 : machine) :
  requests_only us m m1 -> requests_only vs m1 m2 ->
  requests_only (us ++ vs) m m2.
Proof.
  intros (Hr1 & Hf1 & Hs1) (Hr2 & Hf2 & Hs2). unfold requests_only.
  rewrite Hr2, Hr1, Hf2, Hf1, Hs2, Hs1, app_assoc. done.
Qed.

Lemma get_html_parser_requests (url : str) (m m' : machine) (r : result node) :
  get_html_parser url m = (r, m') ->
  requests_only [url] m m' /\ http_get url (net m) = (r, net m').
Proof.
  unfold get_html_parser. destruct (http_get url (net m)) as [r0 w].
  intros [= <- <-]. by repeat split.
Qed.

(** ** One profile *)

Lemma get_personal_page_requests (self : Parser) (link : str) (index : nat)
    (m m' : machine) (r : result (gmap str value)) :
  get_personal_page self link index m = (r, m') ->
  requests_only [personal_page_prefix ++ link] m m'.
Proof.
  unfold get_personal_page.
  destruct (get_html_parser (personal_page_prefix ++ link) m)
    as [[soup|e] m1] eqn:Hget.
  - rewrite (bind_Ok _ _ _ _ _ Hget).
    apply get_html_parser_requests in Hget as [Hget _].
    unfold mbind, M_bind, lift, mret, M_ret.
    intros Hrest. repeat case_match; by simplify_eq.
  - rewrite (bind_Err _ _ _ _ _ Hget). intros [= <- <-].
    by apply get_html_parser_requests in Hget as [Hget _].
Qed.

Lemma transform_degree_range (s : str) (d : Z) :
  transform_degree lower s = Ok d -> (0 <= d <= 5)%Z.
Proof.
  unfold transform_degree. case_decide as Hs; [|intros [= <-]; done].
  apply list_elem_of_lookup_1 in Hs as [i Hi].
  rewrite (py_index_lookup degrees i _ degrees_NoDup Hi). intros [= <-].
  apply lookup_lt_Some in Hi. change (length degrees) with 5%nat in Hi. lia.
Qed.

Lemma transform_full_name_keys (s : str) (r : gmap str value) :
  transform_full_name s = Ok r ->
  exists last_name first_name middle_name,
    r = {[ u "last_name" := VStr last_name;
           u "first_name" := VStr first_name;
           u "middle_name" := VStr middle_name ]}.
Proof.
  unfold transform_full_name. intros Hr.
  destruct (_ : result (list str)) as [names|e] in Hr; [|done].
  simpl in Hr.
  destruct (py_nth names 0) as [n0|]; [|done].
  destruct (py_nth names 1) as [n1|]; [|done].
  destruct (py_nth names 2) as [n2|]; [|done].
  injection Hr as <-. by eexists _, _, _.
Qed.

(** What [get_personal_page] returns, spelled out. *)
Lemma get_personal_page_Ok_inv (self : Parser) (link : str) (index : nat)
    (m m' : machine) (r : gmap str value) :
  get_personal_page self link index m = (Ok r, m') ->
  exists soup full_name img degree_string names degree,
    http_get (personal_page_prefix ++ link) (net m) = (Ok soup, net m')
    /\ parse_personal_page soup person_div_id = Ok (full_name, img, degree_string)
    /\ transform_full_name full_name = Ok names
    /\ transform_degree lower degree_string = Ok degree
    /\ r = <[u "degree" := VInt degree]>
            (<[u "img" := VStr match img with
                              | _ :: _ => personal_page_prefix ++ img
                              | [] => default_image
                              end]> names).
Proof.
  unfold get_personal_page. intros Hrun.
  apply bind_Ok_inv in Hrun as (soup & m1 & Hget & Hrun).
  apply get_html_parser_requests in Hget as [_ Hget].
  unfold mbind, M_bind, lift, mret, M_ret in Hrun.
  destruct (parse_personal_page soup person_div_id)
    as [[[full_name img] degree_string]|] eqn:Hpage; [|done].
  destruct (transform_full_name full_name) as [names|] eqn:Hnames; [|done].
  destruct (transform_degree lower degree_string) as [degree|] eqn:Hdeg;
    [|done].
  injection Hrun as <- <-. by exists soup, full_name, img, degree_string, names, degree.
Qed.

(** C9: a record returned by [get_personal_page] has exactly the five keys
    [last_name], [first_name], [middle_name], [img] and [degree], and its
    [degree] is an integer between 0 and 5. *)
Theorem get_personal_page_record (self : Parser) (link : str) (index : nat)
    (m m' : machine) (r : gmap str value) :
  get_personal_page self link index m = (Ok r, m') ->
  dom r = record_keys
  /\ size r = 5%nat
  /\ exists d : Z, r !! u "degree" = Some (VInt d) /\ (0 <= d <= 5)%Z.
Proof.
  intros Hrun.
  apply get_personal_page_Ok_inv in Hrun
    as (soup & full_name & img & degree_string & names & degree
        & _ & _ & Hnames & Hdeg & ->).
  apply transform_full_name_keys in Hnames as (l & f & mid & ->).
  assert (Hdom : forall v w : value,
    dom (<[u "degree" := v]> (<[u "img" := w]>
      ({[ u "last_name" := VStr l; u "first_name" := VStr f;
          u "middle_name" := VStr mid ]} : gmap str value))) = record_keys).
  { intros v w. rewrite !dom_insert_L, dom_singleton_L.
    unfold record_keys. set_solver. }
  split; [apply Hdom|]. split.
  - rewrite <- size_dom, Hdom. unfold record_keys.
    rewrite !size_union, !size_singleton; [done|..];
      apply (bool_decide_unpack _); vm_compute; reflexivity.
  - exists degree. split; [by rewrite lookup_insert_eq|].
    by eapply transform_degree_range.
Qed.

Lemma matches_name (name : str) (n : node) :
  matches name [] [] n = tag_named name n.
Proof.
  destruct n as [nm attrs contents|kind s]; [|done].
  unfold matches, tag_named. simpl. by rewrite !andb_true_r.
Qed.

Lemma find_no_tag (name : str) (n : node) :
  Forall (fun d => tag_named name d = false) (descendants n) ->
  find name [] n = None.
Proof.
  intros Hnone. unfold find, find_all. apply head_filter_None.
  eapply Forall_impl; [exact Hnone|]. intros d Hd.
  rewrite matches_name, Hd. done.
Qed.

(** C6 (with the empty source path set apart): let [container] be the
    info container of the profile page and [r] the record assembled from
    the page. If no image lies below [container], the [img] of [r] is
    [default_image]. If [image] is the first image below [container] and
    [src] its source path, the [img] of [r] is [personal_page_prefix]
    followed by [src] when [src] is not empty, and [default_image] when it
    is. *)
Theorem get_personal_page_img (self : Parser) (link : str) (index : nat)
    (m m' : machine) (r : gmap str value) (page container : node) (w : world) :
  http_get (personal_page_prefix ++ link) (net m) = (Ok page, w) ->
  find (u "div") [(u "id", person_div_id)] page = Some container ->
  get_personal_page self link index m = (Ok r, m') ->
  (Forall (fun n => tag_named (u "img") n = false) (descendants container) ->
   r !! u "img" = Some (VStr default_image))
  /\ (forall (image : node) (src : str),
        find (u "img") [] container = Some image ->
        attr (u "src") image = Some src ->
        r !! u "img"
        = Some (VStr (if decide (src = []) then default_image
                      else personal_page_prefix ++ src))).
Proof.
  intros Hweb Hcontainer Hrun.
  apply get_personal_page_Ok_inv in Hrun
    as (soup & full_name & img & degree_string & names & degree
        & Hget & Hpage & _ & _ & ->).
  rewrite Hweb in Hget. injection Hget as <- _.
  rewrite lookup_insert_ne by (apply (bool_decide_unpack _); vm_compute; reflexivity).
  rewrite lookup_insert_eq.
  unfold parse_personal_page in Hpage. rewrite Hcontainer in Hpage.
  simpl in Hpage. split.
  - intros Hnone. rewrite (find_no_tag _ _ Hnone) in Hpage. simpl in Hpage.
    destruct (not_none (find (u "h4") [] container)); [|done]. simpl in Hpage.
    destruct (parse_degree_ container); [|done]. by injection Hpage as <- <- <-.
  - intros image src Himage Hsrc. rewrite Himage in Hpage.
    destruct image as [nm attrs contents|kind s]; [|done].
    simpl in Hsrc. unfold get_item in Hpage. rewrite Hsrc in Hpage.
    simpl in Hpage.
    destruct (not_none (find (u "h4") [] container)); [|done]. simpl in Hpage.
    destruct (parse_degree_ container); [|done]. injection Hpage as <- <- <-.
    destruct src as [|c src]; [by rewrite decide_True|by rewrite decide_False].
Qed.

(** ** The whole run *)

Lemma get_staff_list_requests (self : Parser) (m m1 : machine)
    (r : result (list str)) :
  get_staff_list self m = (r, m1) -> requests_only [base_url self] m m1.
Proof.
  unfold get_staff_list.
  destruct (get_html_parser (base_url self) m) as [[soup|e] m0] eqn:Hget.
  - rewrite (bind_Ok _ _ _ _ _ Hget). unfold lift. intros [= <- <-].
    by apply get_html_parser_requests in Hget as [Hget _].
  - rewrite (bind_Err _ _ _ _ _ Hget). intros [= <- <-].
    by apply get_html_parser_requests in Hget as [Hget _].
Qed.

Lemma get_staff_list_Ok_inv (self : Parser) (m m1 : machine)
    (staff_links : list str) :
  get_staff_list self m = (Ok staff_links, m1) ->
  exists soup,
    http_get (base_url self) (net m) = (Ok soup, net m1)
    /\ parse_staff_links soup staff_div_id = Ok staff_links.
Proof.
  unfold get_staff_list. intros Hrun.
  apply bind_Ok_inv in Hrun as (soup & m0 & Hget & Hlift).
  unfold lift in Hlift. injection Hlift as Hlinks <-.
  apply get_html_parser_requests in Hget as [_ Hget]. by exists soup.
Qed.

Lemma personal_page_of_elem (self : Parser) (staff_links : list str)
    (link : str) (index : nat) (m : machine) :
  link ∈ staff_links ->
  personal_page_of self staff_links link m = get_personal_page self link index m.
Proof.
  intros Hlink. destruct (py_index_elem staff_links link Hlink) as [i Hi].
  unfold personal_page_of.
  rewrite (bind_Ok _ _ m m i) by (unfold lift; by rewrite Hi). done.
Qed.

Lemma personal_page_of_Ok_inv (self : Parser) (staff_links : list str)
    (link : str) (m m1 : machine) (r : gmap str value) :
  personal_page_of self staff_links link m = (Ok r, m1) ->
  exists index, get_personal_page self link index m = (Ok r, m1).
Proof.
  unfold personal_page_of. intros Hrun.
  apply bind_Ok_inv in Hrun as (i & m0 & Hlift & Hpage).
  unfold lift in Hlift. injection Hlift as _ <-. by exists i.
Qed.

Lemma collected_requests (self : Parser) (links : list str)
    (rs : list (gmap str value)) (m m' : machine) :
  collected self links rs m m' ->
  requests_only (map (app personal_page_prefix) links) m m'
  /\ length rs = length links.
Proof.
  induction 1 as [m|link links r rs index m m1 m2 Hpage _ [IHreq IHlen]].
  - split; [apply requests_only_refl|done].
  - split; [|simpl; by rewrite IHlen].
    apply get_personal_page_requests in Hpage.
    exact (requests_only_trans [_] _ _ _ _ Hpage IHreq).
Qed.

Lemma run_loop_Ok_inv (self : Parser) (staff_links pending : list str)
    (acc out : list (gmap str value)) (m m' : machine) :
  run_loop (map (personal_page_of self staff_links) pending) acc m = (Ok out, m') ->
  exists rs, out = acc ++ rs /\ collected self pending rs m m'.
Proof.
  revert acc m. induction pending as [|link pending IH]; intros acc m Hrun.
  - injection Hrun as <- <-. exists []. split; [by rewrite app_nil_r|constructor].
  - simpl in Hrun. apply bind_Ok_inv in Hrun as (r & m1 & Hpage & Hrest).
    apply personal_page_of_Ok_inv in Hpage as [index Hpage].
    apply IH in Hrest as (rs & -> & Hrest).
    exists (r :: rs). split; [by rewrite <- app_assoc|].
    by econstructor.
Qed.

Lemma run_loop_collected (self : Parser) (staff_links done rest : list str)
    (rs acc : list (gmap str value)) (m m1 : machine) :
  collected self done rs m m1 ->
  (forall link, link ∈ done -> link ∈ staff_links) ->
  run_loop (map (personal_page_of self staff_links) (done ++ rest)) acc m
  = run_loop (map (personal_page_of self staff_links) rest) (acc ++ rs) m1.
Proof.
  intros Hdone. revert acc.
  induction Hdone as [m|link links r rs index m m1 m2 Hpage _ IH];
    intros acc Hin.
  - by rewrite app_nil_r.
  - simpl. rewrite (bind_Ok _ _ m m1 r).
    + rewrite IH by (intros l Hl; apply Hin; by right).
      by rewrite <- app_assoc.
    + rewrite (personal_page_of_elem _ _ _ index) by (apply Hin; by left).
      done.
Qed.

(** C5: when [run] completes, the [results] attribute holds the records
    [rs] collected from the links [staff_links] that [parse_staff_links]
    extracted from the index page: one record per link, in the order of the
    links. *)
Theorem run_one_record_per_link (self : Parser) (m m' : machine) :
  run self m = (Ok tt, m') ->
  exists (index : node) (staff_links : list str) (rs : list (gmap str value))
         (m1 m2 : machine),
    get_html_parser (base_url self) m = (Ok index, m1)
    /\ parse_staff_links index staff_div_id = Ok staff_links
    /\ collected self staff_links rs m1 m2
    /\ length rs = length staff_links
    /\ results m' = Some rs.
Proof.
  unfold run, get_staff_list. intros Hrun.
  apply bind_Ok_inv in Hrun as (staff_links & m1 & Hlinks & Hrun).
  apply bind_Ok_inv in Hlinks as (index & m0 & Hget & Hlift).
  unfold lift in Hlift. injection Hlift as Hlinks <-.
  apply bind_Ok_inv in Hrun as (rs & m2 & Hloop & Hrun).
  apply run_loop_Ok_inv in Hloop as (rs' & -> & Hloop). simpl in Hrun.
  apply bind_Ok_inv in Hrun as (? & m3 & _ & Hset).
  unfold set_results in Hset. injection Hset as <-.
  exists index, staff_links, rs', m0, m2.
  repeat split; try done. by apply collected_requests in Hloop as [_ ?].
Qed.

(** C7: when the index page has no element carrying the identifier
    [staff_div_id], [parse_staff_links] raises [AttributeError] instead of
    returning links, and [run] fails with that error having requested the
    index page only, written no file and left [results] as it was. *)
Theorem run_no_container (self : Parser) (m : machine) (index : node)
    (w : world) :
  http_get (base_url self) (net m) = (Ok index, w) ->
  Forall (fun n => has_id staff_div_id n = false) (descendants index) ->
  parse_staff_links index staff_div_id = Err AttributeError
  /\ exists m',
       run self m = (Err AttributeError, m')
       /\ requests_only [base_url self] m m'.
Proof.
  intros Hweb Hnone.
  assert (Hlinks : parse_staff_links index staff_div_id = Err AttributeError)
    by (by apply parse_staff_links_no_container).
  split; [done|].
  assert (Hlist : exists m', get_staff_list self m = (Err AttributeError, m')).
  { unfold get_staff_list, get_html_parser, mbind, M_bind, lift.
    rewrite Hweb, Hlinks. by eexists. }
  destruct Hlist as [m' Hlist]. exists m'.
  split; [|by eapply get_staff_list_requests].
  unfold run. by apply bind_Err.
Qed.

(** C8: when the index page yields [done ++ link :: rest], the profiles of
    [done] are collected and the profile of [link] fails with [e], then
    [run] fails with [e] in the state the failing profile left: the requests
    stop at the failing profile, no file is written, and the [results]
    attribute is as it was before the run. *)
Theorem run_aborts_on_failure (self : Parser) (m m1 m2 m3 : machine)
    (done rest : list str) (link : str) (rs : list (gmap str value))
    (index : nat) (e : exn) :
  get_staff_list self m = (Ok (done ++ link :: rest), m1) ->
  collected self done rs m1 m2 ->
  get_personal_page self link index m2 = (Err e, m3) ->
  run self m = (Err e, m3)
  /\ requests_only
       (base_url self :: map (app personal_page_prefix) (done ++ [link])) m m3.
Proof.
  intros Hlist Hdone Hfail. split.
  - unfold run. rewrite (bind_Ok _ _ _ _ _ Hlist). apply bind_Err.
    change (get_personal_data self (done ++ link :: rest))
      with (map (personal_page_of self (done ++ link :: rest))
                (done ++ link :: rest)).
    rewrite (run_loop_collected _ _ _ _ _ _ _ _ Hdone)
      by (intros l Hl; apply elem_of_app; by left).
    simpl. apply bind_Err.
    rewrite (personal_page_of_elem _ _ _ index); [done|].
    apply elem_of_app. right. by left.
  - apply get_staff_list_requests in Hlist.
    apply collected_requests in Hdone as [Hdone _].
    apply get_personal_page_requests in Hfail.
    rewrite map_app.
    exact (requests_only_trans [_] _ _ _ _ Hlist
             (requests_only_trans _ [_] _ _ _ Hdone Hfail)).
Qed.

(** C10: on a parser whose [results] attribute is not set and whose
    [file_path] is a non-empty path, a run whose index page yields no link
    fails with [AttributeError]; it writes no file and [results] stays
    unset. *)
Theorem run_empty_with_file (self : Parser) (m m1 : machine) (path : str) :
  results m = None ->
  file_path self = Some path -> path <> [] ->
  get_staff_list self m = (Ok [], m1) ->
  run self m = (Err AttributeError, m1)
  /\ files m1 = files m
  /\ results m1 = None.
Proof.
  intros Hfresh Hpath Hne Hlist.
  pose proof (get_staff_list_requests _ _ _ _ Hlist) as (_ & Hfiles & Hres).
  rewrite Hfresh in Hres. repeat split; try done.
  unfold run. rewrite (bind_Ok _ _ _ _ _ Hlist). simpl.
  rewrite (bind_Ok _ _ m1 m1 []) by done.
  apply bind_Err. rewrite Hpath. destruct path as [|c path]; [done|].
  unfold write. apply bind_Err. unfold get_results. by rewrite Hres.
Qed.

(** ** More on the transformers *)

Lemma rev_is_token (cur : str) :
  cur <> [] -> Forall (fun c => isspace c = false) cur -> is_token (rev cur).
Proof.
  intros Hne Hcur. split; [|by apply List.Forall_rev].
  intros Hrev. apply Hne. by rewrite <- (rev_involutive cur), Hrev.
Qed.

Lemma split_from_tokens (cur s : str) :
  Forall (fun c => isspace c = false) cur ->
  Forall is_token (split_from cur s).
Proof.
  revert cur. induction s as [|c s IH]; intros cur Hcur; simpl.
  - destruct cur as [|c0 cur]; [constructor|].
    constructor; [by apply rev_is_token|constructor].
  - destruct (isspace c) eqn:Hc.
    + destruct cur as [|c0 cur]; [by apply IH|].
      constructor; [by apply rev_is_token|by apply IH].
    + apply IH. by constructor.
Qed.

Lemma split_tokens (s : str) : Forall is_token (split s).
Proof. apply split_from_tokens. constructor. Qed.

Lemma split_from_app (cur t s : str) :
  Forall (fun c => isspace c = false) t ->
  split_from cur (t ++ s) = split_from (rev t ++ cur) s.
Proof.
  intros Ht. revert cur. induction Ht as [|c t Hc _ IH]; intros cur; [done|].
  simpl. rewrite Hc, IH. f_equal. by rewrite <- List.app_assoc.
Qed.

Lemma split_from_token_end (t : str) :
  is_token t -> split_from (rev t) [] = [t].
Proof.
  intros [Hne _]. simpl. destruct (rev t) eqn:Hrev.
  - exfalso. apply Hne. by rewrite <- (rev_involutive t), Hrev.
  - by rewrite <- Hrev, rev_involutive.
Qed.

Lemma split_from_token_space (t s : str) :
  is_token t -> split_from (rev t) (32 :: s) = t :: split_from [] s.
Proof.
  intros [Hne _]. simpl. destruct (rev t) eqn:Hrev.
  - exfalso. apply Hne. by rewrite <- (rev_involutive t), Hrev.
  - by rewrite <- Hrev, rev_involutive.
Qed.

Lemma split_join (ts : list str) :
  Forall is_token ts -> split (join (u " ") ts) = ts.
Proof.
  unfold split. induction 1 as [|t ts Ht Hts IH]; [done|].
  destruct ts as [|t' ts].
  - pose proof (split_from_app [] t [] (proj2 Ht)) as Happ.
    rewrite !app_nil_r in Happ. simpl. rewrite Happ.
    by apply split_from_token_end.
  - change (join (u " ") (t :: t' :: ts))
      with (t ++ 32 :: join (u " ") (t' :: ts)).
    rewrite (split_from_app _ _ _ (proj2 Ht)), app_nil_r.
    rewrite (split_from_token_space _ _ Ht). by rewrite IH.
Qed.

(** [transform_degree] never raises: it answers a rank between 0 and 5,
    and the rank is 5 exactly when the lower-cased label is not one of
    [degrees]. *)
Theorem transform_degree_total (s : str) :
  exists d : Z,
    transform_degree lower s = Ok d
    /\ (0 <= d <= 5)%Z
    /\ (d = 5%Z <-> lower s ∉ degrees).
Proof.
  unfold transform_degree. case_decide as Hs.
  - destruct (proj1 (list_elem_of_lookup _ _) Hs) as [i Hi].
    rewrite (py_index_lookup degrees i _ degrees_NoDup Hi).
    apply lookup_lt_Some in Hi. change (length degrees) with 5%nat in Hi.
    exists (Z.of_nat i). split; [done|]. split; [lia|].
    split; [lia|done].
  - exists 5%Z. by repeat split.
Qed.

(** The name parts [transform_full_name] returns are clean: [last_name]
    and [first_name] are tokens (non-empty, without whitespace), and
    [middle_name] is a sequence of tokens separated by single spaces, with
    no whitespace in front or behind. *)
Theorem transform_full_name_clean (s : str) (r : gmap str value) :
  transform_full_name s = Ok r ->
  exists last_name first_name middle_name : str,
    r = {[ u "last_name" := VStr last_name;
           u "first_name" := VStr first_name;
           u "middle_name" := VStr middle_name ]}
    /\ is_token last_name /\ is_token first_name
    /\ join (u " ") (split middle_name) = middle_name.
Proof.
  intros Hr. pose proof (split_tokens s) as Htok.
  unfold transform_full_name in Hr.
  destruct (split s) as [|t0 [|t1 rest]]; [done|done|].
  apply Forall_cons in Htok as [Ht0 Htok].
  apply Forall_cons in Htok as [Ht1 Hrest].
  exists t0, t1, (join (u " ") rest).
  split; [|split; [done|split; [done|by rewrite split_join]]].
  destruct rest as [|t2 rest].
  - rewrite decide_True in Hr by done. by injection Hr as <-.
  - rewrite decide_False in Hr by (simpl; lia). by injection Hr as <-.
Qed.

(** [transform_full_name] only looks at the tokens of the name: writing
    the tokens with single spaces between them gives the same outcome as the
    name itself, whatever whitespace the name has. *)
Theorem transform_full_name_normalised (s : str) :
  transform_full_name (join (u " ") (split s)) = transform_full_name s.
Proof.
  unfold transform_full_name. by rewrite (split_join _ (split_tokens s)).
Qed.

(** ** More on the parsers *)

(** [parse_staff_links] never raises [KeyError]: it fails only with
    [AttributeError], and only when the search for the container found
    nothing. *)
Theorem parse_staff_links_error (doc : node) (div_id : str) (e : exn) :
  parse_staff_links doc div_id = Err e ->
  e = AttributeError /\ find (u "div") [(u "id", div_id)] doc = None.
Proof.
  unfold parse_staff_links.
  destruct (find (u "div") [(u "id", div_id)] doc) as [c|]; simpl.
  - unfold find_all. by rewrite find_all_hrefs.
  - by intros [= <-].
Qed.

Lemma partition_head_prefix (sep : N) (s : str) :
  partition_head sep s `prefix_of` s.
Proof.
  induction s as [|c s IH]; [done|]. simpl.
  destruct (c =? sep); [apply prefix_nil|by apply prefix_cons].
Qed.

Lemma partition_head_sep (sep : N) (s : str) : sep ∉ partition_head sep s.
Proof.
  induction s as [|c s IH]; simpl; [apply not_elem_of_nil|].
  destruct (N.eqb_spec c sep) as [|Hne]; [apply not_elem_of_nil|].
  intros [->|Hin]%elem_of_cons; [done|by apply IH].
Qed.

Lemma partition_head_id (sep : N) (s : str) :
  sep ∉ s -> partition_head sep s = s.
Proof.
  induction s as [|c s IH]; [done|]. intros Hs. simpl.
  destruct (N.eqb_spec c sep) as [->|Hne].
  - exfalso. apply Hs. by left.
  - f_equal. apply IH. intros Hin. apply Hs. by right.
Qed.

(** The degree text [parse_degree_] returns comes from the string node
    that follows the first line break of the marked paragraph: it is the
    beginning of that string, it holds no U+00A0, and it is the whole string
    when the string holds no U+00A0. *)
Theorem parse_degree_text (soup : node) (s : str) :
  parse_degree_ soup = Ok s ->
  exists (p : node) (kind : string_kind) (t : str),
    find (u "p") [(u "class", u "noIndnt")] soup = Some p
    /\ br_next_sibling p = Some (Some (NavStr kind t))
    /\ s `prefix_of` t
    /\ (0xA0 ∉ s)
    /\ (0xA0 ∉ t -> s = t).
Proof.
  unfold parse_degree_. intros Hs.
  destruct (find (u "p") [(u "class", u "noIndnt")] soup) as [p|]; [|done].
  simpl in Hs.
  destruct (br_next_sibling p) as [[[nm attrs cs|kind t]|]|] eqn:Hbr;
    rewrite ?Hbr in Hs; simpl in Hs; [|injection Hs as <-|done|done].
  - by destruct (find (u "partition") [] (Tag nm attrs cs)).
  - exists p, kind, t.
    split; [done|]. split; [done|]. split; [apply partition_head_prefix|].
    split; [apply partition_head_sep|]. intros Ht.
    by apply partition_head_id.
Qed.

Lemma find_tag (name : str) (n x : node) :
  find name [] n = Some x -> tag_named name x = true.
Proof.
  unfold find, find_all. intros Hx. apply head_Some_elem_of in Hx.
  apply list_elem_of_filter in Hx as [Hx _]. by rewrite matches_name in Hx.
Qed.

(** Once the info container is found, [parse_personal_page] raises
    [KeyError] exactly when the first image below the container has no
    source attribute. *)
Theorem parse_personal_page_KeyError (soup container : node) (div_id : str) :
  find (u "div") [(u "id", div_id)] soup = Some container ->
  parse_personal_page soup div_id = Err KeyError
  <-> exists image : node,
        find (u "img") [] container = Some image
        /\ attr (u "src") image = None.
Proof.
  intros Hc. unfold parse_personal_page. rewrite Hc. simpl.
  assert (Hrest : forall img : str,
    (h4 ← not_none (find (u "h4") [] container);
     degree_string ← parse_degree_ container;
     Ok (text h4, img, degree_string)) <> Err KeyError).
  { intros img. destruct (find (u "h4") [] container) as [h4|]; [|done].
    simpl. unfold parse_degree_.
    destruct (find (u "p") [(u "class", u "noIndnt")] container) as [p|];
      [|done].
    simpl. destruct (br_next_sibling p) as [[[nm attrs cs|kind t]|]|];
      simpl; try done.
    by destruct (find (u "partition") [] (Tag nm attrs cs)). }
  destruct (find (u "img") [] container) as [image|] eqn:Himage; simpl.
  - apply find_tag in Himage.
    destruct image as [nm attrs cs|kind t]; [|done]. simpl.
    destruct (attrs !! u "src") as [src|] eqn:Hsrc; simpl.
    + split; [intros H; by apply Hrest in H|].
      intros (image & [= <-] & Himg). simpl in Himg. congruence.
    + split; [|done]. intros _. by eexists.
  - split; [intros H; by apply Hrest in H|]. by intros (image & ? & _).
Qed.

(** ** More on the pipeline *)

(** A record assembled by [get_personal_page] always carries a photo URL:
    either [default_image], or [personal_page_prefix] followed by a
    non-empty source path. *)
Theorem get_personal_page_img_url (self : Parser) (link : str) (index : nat)
    (m m' : machine) (r : gmap str value) :
  get_personal_page self link index m = (Ok r, m') ->
  exists url : str,
    r !! u "img" = Some (VStr url)
    /\ (url = default_image
        \/ exists src : str, src <> [] /\ url = personal_page_prefix ++ src).
Proof.
  intros Hrun.
  apply get_personal_page_Ok_inv in Hrun
    as (soup & full_name & img & degree_string & names & degree
        & _ & _ & _ & _ & ->).
  rewrite lookup_insert_ne
    by (apply (bool_decide_unpack _); vm_compute; reflexivity).
  rewrite lookup_insert_eq. eexists. split; [done|].
  destruct img as [|c img]; [by left|]. right. by exists (c :: img).
Qed.


Lemma personal_page_of_requests (self : Parser) (staff_links : list str)
    (link : str) (m m' : machine) (r : result (gmap str value)) :
  personal_page_of self staff_links link m = (r, m') ->
  exists urls, requests_only urls m m'.
Proof.
  unfold personal_page_of, mbind, M_bind, lift.
  destruct (py_index staff_links link) as [i|e].
  - intros Hpage. eexists. by eapply get_personal_page_requests.
  - intros [= <- <-]. eexists. apply requests_only_refl.
Qed.

Lemma run_loop_requests (self : Parser) (staff_links pending : list str)
    (acc : list (gmap str value)) (m m' : machine)
    (r : result (list (gmap str value))) :
  run_loop (map (personal_page_of self staff_links) pending) acc m = (r, m') ->
  exists urls, requests_only urls m m'.
Proof.
  revert acc m. induction pending as [|link pending IH]; intros acc m; simpl.
  - intros [= <- <-]. eexists. apply requests_only_refl.
  - destruct (personal_page_of self staff_links link m) as [[rec|e] m1] eqn:Hp.
    + rewrite (bind_Ok _ _ _ _ _ Hp). intros Hrest.
      apply personal_page_of_requests in Hp as [us Hus].
      apply IH in Hrest as [vs Hvs]. eexists.
      by eapply requests_only_trans.
    + rewrite (bind_Err _ _ _ _ _ Hp). intros [= <- <-].
      by eapply personal_page_of_requests.
Qed.

Lemma run_loop_all (self : Parser) (staff_links : list str)
    (rs : list (gmap str value)) (m m' : machine) :
  collected self staff_links rs m m' ->
  run_loop (get_personal_data self staff_links) [] m = (Ok rs, m').
Proof.
  intros Hall.
  change (get_personal_data self staff_links)
    with (map (personal_page_of self staff_links) staff_links).
  rewrite <- (app_nil_r staff_links) at 2.
  by rewrite (run_loop_collected _ _ _ [] _ [] _ _ Hall).
Qed.

(** What [write] does: with records to write, or with a stored [results]
    to fall back on, it hands them to [write_result]; with neither it fails
    with [AttributeError] and changes nothing. *)
Lemma write_outcome (self : Parser) (filepath : str)
    (rs : list (gmap str value)) (m : machine) :
  let data := match rs with [] => results m | _ :: _ => Some rs end in
  write self filepath rs m
  = match data with
    | None => (Err AttributeError, m)
    | Some d => write_result self filepath d m
    end.
Proof.
  unfold write, get_results, mbind, M_bind, mret, M_ret.
  destruct rs as [|r rs]; simpl; [|done].
  destruct (results m) as [d|] eqn:Hres; [|done]. by rewrite ?Hres.
Qed.

(** The stages of [run]. *)
Lemma run_stages (self : Parser) (m : machine) :
  match get_staff_list self m with
  | (Err e, m1) => run self m = (Err e, m1)
  | (Ok staff_links, m1) =>
    match run_loop (get_personal_data self staff_links) [] m1 with
    | (Err e, m2) => run self m = (Err e, m2)
    | (Ok rs, m2) =>
      match file_path self with
      | Some (c :: path) =>
        match write self (c :: path) rs m2 with
        | (Err e, m3) => run self m = (Err e, m3)
        | (Ok _, m3) => run self m = set_results rs m3
        end
      | _ => run self m = set_results rs m2
      end
    end
  end.
Proof.
  unfold run.
  destruct (get_staff_list self m) as [[staff_links|e] m1] eqn:Hlist;
    [|by rewrite (bind_Err _ _ _ _ _ Hlist)].
  rewrite (bind_Ok _ _ _ _ _ Hlist). simpl.
  destruct (run_loop _ _ m1) as [[rs|e] m2] eqn:Hloop;
    [|by rewrite (bind_Err _ _ _ _ _ Hloop)].
  rewrite (bind_Ok _ _ _ _ _ Hloop).
  destruct (file_path self) as [[|c path]|].
  - by rewrite (bind_Ok _ _ m2 m2 tt).
  - destruct (write self (c :: path) rs m2) as [[[]|e] m3] eqn:Hwrite.
    + by rewrite (bind_Ok _ _ _ _ _ Hwrite).
    + by rewrite (bind_Err _ _ _ _ _ Hwrite).
  - by rewrite (bind_Ok _ _ m2 m2 tt).
Qed.

(** A completed [run] has requested the index page and then, for each
    link in the order of the index page, the site prefix followed by that
    link: one request per link, none repeated, none left out. *)
Theorem run_requests (self : Parser) (m m' : machine) :
  run self m = (Ok tt, m') ->
  exists (index : node) (staff_links : list str) (w : world),
    http_get (base_url self) (net m) = (Ok index, w)
    /\ parse_staff_links index staff_div_id = Ok staff_links
    /\ requested m'
       = requested m
         ++ base_url self :: map (app personal_page_prefix) staff_links.
Proof.
  intros Hrun. pose proof (run_stages self m) as Hst.
  destruct (get_staff_list self m) as [[staff_links|e] m1] eqn:Hlist;
    [|congruence].
  pose proof (get_staff_list_requests _ _ _ _ Hlist) as (Hreq1 & _ & _).
  apply get_staff_list_Ok_inv in Hlist as (index & Hweb & Hlinks).
  exists index, staff_links, (net m1). split; [done|]. split; [done|].
  destruct (run_loop _ _ m1) as [[rs|e] m2] eqn:Hloop; [|congruence].
  apply run_loop_Ok_inv in Hloop as (rs' & _ & Hall).
  apply collected_requests in Hall as [(Hreq2 & _ & _) _].
  assert (Hm' : requested m' = requested m2).
  { destruct (file_path self) as [[|c path]|].
    - rewrite Hst in Hrun. by injection Hrun as <-.
    - rewrite (write_outcome self (c :: path) rs m2) in Hst.
      destruct (match rs with [] => results m2 | _ :: _ => Some rs end)
        as [d|]; [|congruence].
      unfold write_result in Hst.
      destruct (open_w (c :: path)); [congruence|].
      destruct (json_encodable d); [|congruence].
      rewrite Hst in Hrun. by injection Hrun as <-.
    - rewrite Hst in Hrun. by injection Hrun as <-. }
  rewrite Hm', Hreq2, Hreq1, <- app_assoc. done.
Qed.

(** Enough for [run] to complete: the index page yields [staff_links],
    every profile is collected and, if an output path is configured, there
    is at least one record, the path can be opened and the records can be
    written as UTF-8. *)
Lemma run_collected (self : Parser) (m m1 m2 : machine)
    (staff_links : list str) (rs : list (gmap str value)) :
  get_staff_list self m = (Ok staff_links, m1) ->
  collected self staff_links rs m1 m2 ->
  (forall path, file_path self = Some path -> path <> [] ->
     rs <> [] /\ open_w path = None /\ json_encodable rs = true) ->
  run self m
  = (Ok tt,
     {| net := net m2; requested := requested m2;
        files := match file_path self with
                 | Some (c :: path) =>
                   <[c :: path :=
                       {| dump_data := rs;
                          dump_indent := if pretty_output self
                                         then Some 2%nat else None;
                          dump_complete := true |}]>
                     (files m2)
                 | _ => files m2
                 end;
        results := Some rs |}).
Proof.
  intros Hlist Hall Hpath. pose proof (run_stages self m) as Hst.
  rewrite Hlist, (run_loop_all _ _ _ _ _ Hall) in Hst.
  destruct (file_path self) as [[|c path]|]; try done.
  destruct (Hpath (c :: path) eq_refl) as (Hrs & Hopen & Hjson); [done|].
  rewrite (write_outcome self (c :: path) rs m2) in Hst.
  destruct rs as [|r rs]; [done|]. unfold write_result in Hst.
  by rewrite Hopen, Hjson in Hst.
Qed.

(** When the output file cannot be opened, [run] fails with the exception
    [open] raised, after every profile has been fetched, and the records
    are lost: the [results] attribute is assigned only after the file is
    written. *)
Theorem run_unwritable (self : Parser) (m m1 m2 : machine)
    (staff_links : list str) (rs : list (gmap str value)) (path : str)
    (e : exn) :
  get_staff_list self m = (Ok staff_links, m1) ->
  collected self staff_links rs m1 m2 ->
  rs <> [] ->
  file_path self = Some path -> path <> [] -> open_w path = Some e ->
  run self m = (Err e, m2)
  /\ results m2 = results m
  /\ files m2 = files m.
Proof.
  intros Hlist Hall Hrs Hpath Hne Hopen. pose proof (run_stages self m) as Hst.
  rewrite Hlist, (run_loop_all _ _ _ _ _ Hall), Hpath in Hst.
  destruct path as [|c path]; [done|].
  rewrite (write_outcome self (c :: path) rs m2) in Hst.
  destruct rs as [|r rs]; [done|]. unfold write_result in Hst.
  rewrite Hopen in Hst.
  split; [done|].
  apply get_staff_list_requests in Hlist as (_ & Hf1 & Hr1).
  apply collected_requests in Hall as [(_ & Hf2 & Hr2) _].
  split; congruence.
Qed.

(** On a parser that already holds [results] from an earlier run, a run
    that finds no links writes those earlier records to the output file,
    and then sets [results] to the empty list. *)
Lemma run_stale (self : Parser) (m m1 : machine)
    (old : list (gmap str value)) (path : str) :
  results m = Some old ->
  file_path self = Some path -> path <> [] -> open_w path = None ->
  json_encodable old = true ->
  get_staff_list self m = (Ok [], m1) ->
  run self m
  = (Ok tt,
     {| net := net m1; requested := requested m1;
        files := <[path := {| dump_data := old;
                              dump_indent := if pretty_output self
                                             then Some 2%nat else None;
                              dump_complete := true |}]>
                   (files m1);
        results := Some [] |}).
Proof.
  intros Hold Hpath Hne Hopen Hjson Hlist.
  pose proof (run_stages self m) as Hst.
  pose proof (get_staff_list_requests _ _ _ _ Hlist) as (_ & _ & Hr1).
  rewrite Hlist, Hpath in Hst. simpl in Hst.
  destruct path as [|c path]; [done|].
  rewrite (write_outcome self (c :: path) [] m1) in Hst. simpl in Hst.
  rewrite Hr1, Hold in Hst. unfold write_result in Hst.
  by rewrite Hopen, Hjson in Hst.
Qed.

(** Records that cannot be written as UTF-8 make [run] fail in
    [json.dump], once the file is open. *)
Lemma run_truncated (self : Parser) (m m1 m2 : machine)
    (staff_links : list str) (rs : list (gmap str value)) (path : str) :
  get_staff_list self m = (Ok staff_links, m1) ->
  collected self staff_links rs m1 m2 ->
  file_path self = Some path -> path <> [] -> open_w path = None ->
  json_encodable rs = false ->
  run self m
  = (Err UnicodeEncodeError,
     {| net := net m2; requested := requested m2;
        files := <[path := {| dump_data := rs;
                              dump_indent := if pretty_output self
                                             then Some 2%nat else None;
                              dump_complete := false |}]>
                   (files m2);
        results := results m2 |}).
Proof.
  intros Hlist Hall Hpath Hne Hopen Hjson.
  pose proof (run_stages self m) as Hst.
  rewrite Hlist, (run_loop_all _ _ _ _ _ Hall), Hpath in Hst.
  destruct path as [|c path]; [done|].
  rewrite (write_outcome self (c :: path) rs m2) in Hst.
  destruct rs as [|r rs]; [done|]. unfold write_result in Hst.
  by rewrite Hopen, Hjson in Hst.
Qed.


Lemma run_first_request_and_files (self : Parser) (m m' : machine)
    (r : result unit) :
  run self m = (r, m') ->
  (exists urls, requested m' = requested m ++ base_url self :: urls)
  /\ (forall p, file_path self <> Some p -> files m' !! p = files m !! p).
Proof.
  intros Hrun. pose proof (run_stages self m) as Hst.
  destruct (get_staff_list self m) as [[staff_links|e1] m1] eqn:Hlist.
  - apply get_staff_list_requests in Hlist as (Hq1 & Hf1 & _).
    destruct (run_loop _ _ m1) as [[rs|e2] m2] eqn:Hloop.
    + apply run_loop_requests in Hloop as (urls & Hq2 & Hf2 & _).
      assert (Hq : requested m2 = requested m ++ base_url self :: urls)
        by (by rewrite Hq2, Hq1, <- app_assoc).
      destruct (file_path self) as [[|c path]|] eqn:Hpath.
      * rewrite Hst in Hrun. injection Hrun as _ <-.
        split; [by exists urls|]. intros p _. simpl. congruence.
      * rewrite (write_outcome self (c :: path) rs m2) in Hst.
        destruct (match rs with [] => results m2 | _ :: _ => Some rs end)
          as [d|].
        -- unfold write_result in Hst.
           destruct (open_w (c :: path)) as [e0|].
           ++ rewrite Hst in Hrun. injection Hrun as _ <-.
              split; [by exists urls|]. intros p _. congruence.
           ++ destruct (json_encodable d);
                (rewrite Hst in Hrun; injection Hrun as _ <-;
                 split; [by exists urls|]; intros p Hp; simpl;
                 rewrite lookup_insert_ne by congruence; congruence).
        -- rewrite Hst in Hrun. injection Hrun as _ <-.
           split; [by exists urls|]. intros p _. congruence.
      * rewrite Hst in Hrun. injection Hrun as _ <-.
        split; [by exists urls|]. intros p _. simpl. congruence.
    + apply run_loop_requests in Hloop as (urls & Hq2 & Hf2 & _).
      rewrite Hst in Hrun. injection Hrun as _ <-.
      split; [exists urls; by rewrite Hq2, Hq1, <- app_assoc|].
      intros p _. congruence.
  - apply get_staff_list_requests in Hlist as (Hq1 & Hf1 & _).
    rewrite Hst in Hrun. injection Hrun as _ <-.
    split; [by exists []|]. intros p _. congruence.
Qed.

(** Whatever its outcome, [run] writes to no file other than the one at
    the configured [file_path]; without a [file_path] it writes none. *)
Theorem run_other_files_untouched (self : Parser) (m m' : machine)
    (r : result unit) (p : str) :
  run self m = (r, m') ->
  file_path self <> Some p ->
  files m' !! p = files m !! p.
Proof.
  intros Hrun Hp. by apply (run_first_request_and_files _ _ _ _ Hrun).
Qed.

Lemma main_unfold (args : Namespace) :
  main args
  = run {| base_url := Parser_base_url;
           silent_mode := ns_silent_mode args;
           verbose_mode := ns_verbose_mode args;
           pretty_output := ns_pretty_output args;
           file_path := ns_file_path args |}.
Proof. reflexivity. Qed.

(** Whatever the arguments, [main] starts by requesting the fixed index
    URL [Parser_base_url], and it writes to no file other than the one
    given with [-f]. *)
Theorem main_index_and_output (args : Namespace) (m m' : machine)
    (r : result unit) :
  main args m = (r, m') ->
  (exists urls, requested m' = requested m ++ Parser_base_url :: urls)
  /\ (forall p, ns_file_path args <> Some p -> files m' !! p = files m !! p).
Proof.
  rewrite main_unfold. intros Hrun.
  apply run_first_request_and_files in Hrun as [[urls Hreq] Hfiles].
  split.
  - exists urls. rewrite Hreq. reflexivity.
  - intros p Hp. apply Hfiles. intros Heq. apply Hp. rewrite <- Heq.
    reflexivity.
Qed.

(** ** The console *)

Lemma Lbind_Ok {A B} (c : L A) (k : A -> L B) (stdout : printed -> bool)
    (m m1 : machine) (out out1 : list printed) (a : A) :
  c stdout m out = (Ok a, m1, out1) ->
  (c ≫= k) stdout m out = k a stdout m1 out1.
Proof. intros Hc. unfold mbind, L_bind. by rewrite Hc. Qed.

Lemma Lbind_Err {A B} (c : L A) (k : A -> L B) (stdout : printed -> bool)
    (m m1 : machine) (out out1 : list printed) (e : exn) :
  c stdout m out = (Err e, m1, out1) ->
  (c ≫= k) stdout m out = (Err e, m1, out1).
Proof. intros Hc. unfold mbind, L_bind. by rewrite Hc. Qed.

(** *** On a console that takes every item *)

Lemma log_run (self : Parser) (message : str)
    (output : option (gmap str value)) (m : machine) (out : list printed) :
  log self message output unrestricted m out
  = (Ok tt, m, out ++ log_lines self message output).
Proof.
  unfold log, log_lines, log_data, print, mret, L_ret, unrestricted.
  destruct (silent_mode self); [by rewrite app_nil_r|].
  destruct output as [data|]; [|done].
  case_decide; [done|].
  destruct (verbose_mode self); [|by rewrite app_nil_r].
  unfold mbind, L_bind. by rewrite <- app_assoc.
Qed.

Lemma Lbind_log {B : Type} (self : Parser) (message : str)
    (output : option (gmap str value)) (k : unit -> L B) (m : machine)
    (out : list printed) :
  (log self message output ≫= k) unrestricted m out
  = k tt unrestricted m (out ++ log_lines self message output).
Proof. apply Lbind_Ok, log_run. Qed.

Lemma Lbind_quiet {A B : Type} (c : M A) (k : A -> L B)
    (stdout : printed -> bool) (m : machine) (out : list printed) :
  (quiet c ≫= k) stdout m out
  = match c m with
    | (Ok a, m') => k a stdout m' out
    | (Err e, m') => (Err e, m', out)
    end.
Proof. unfold mbind, L_bind, quiet. by destruct (c m) as [[a|e] m']. Qed.

Lemma Lbind_quiet_lift {A B : Type} (r : result A) (k : A -> L B)
    (stdout : printed -> bool) (m : machine) (out : list printed) :
  (quiet (lift r) ≫= k) stdout m out
  = match r with
    | Ok a => k a stdout m out
    | Err e => (Err e, m, out)
    end.
Proof. rewrite Lbind_quiet. unfold lift. by destruct r. Qed.

Lemma bind_lift {A B : Type} (r : result A) (k : A -> M B) (m : machine) :
  (lift r ≫= k) m
  = match r with
    | Ok a => k a m
    | Err e => (Err e, m)
    end.
Proof. unfold mbind, M_bind, lift. by destruct r. Qed.

Lemma log_lines_silent (self : Parser) (message : str)
    (output : option (gmap str value)) :
  silent_mode self = true -> log_lines self message output = [].
Proof. intros Hs. unfold log_lines. by rewrite Hs. Qed.

Lemma log_lines_message (self : Parser) (message : str) :
  log_lines self message None
  = if silent_mode self then [] else [Line message].
Proof. done. Qed.

Lemma get_staff_list_logged_run (self : Parser) (m : machine)
    (out : list printed) :
  get_staff_list_logged self unrestricted m out
  = match get_staff_list self m with
    | (Ok staff_links, m1) =>
      (Ok staff_links, m1,
       (out ++ log_lines self (msg_fetching_list self) None)
       ++ log_lines self (msg_fetched_list staff_links) None)
    | (Err e, m1) =>
      (Err e, m1, out ++ log_lines self (msg_fetching_list self) None)
    end.
Proof.
  unfold get_staff_list_logged, get_staff_list.
  rewrite Lbind_log, Lbind_quiet.
  destruct (get_html_parser (base_url self) m) as [[soup|e] m1] eqn:Hget;
    [|by rewrite (bind_Err _ _ _ _ _ Hget)].
  rewrite (bind_Ok _ _ _ _ _ Hget), Lbind_quiet_lift. unfold lift.
  destruct (parse_staff_links soup staff_div_id) as [staff_links|e]; [|done].
  by rewrite Lbind_log.
Qed.

Lemma get_personal_page_logged_run (self : Parser) (link : str) (index : nat)
    (m : machine) (out : list printed) :
  get_personal_page_logged self link index unrestricted m out
  = (let (r, m') := get_personal_page self link index m in
     (r, m', out ++ page_lines self link index r)).
Proof.
  unfold get_personal_page_logged, get_personal_page, page_lines.
  rewrite Lbind_log, Lbind_quiet.
  destruct (get_html_parser (personal_page_prefix ++ link) m)
    as [[soup|e] m1] eqn:Hget;
    [|by rewrite (bind_Err _ _ _ _ _ Hget), app_nil_r].
  rewrite (bind_Ok _ _ _ _ _ Hget), Lbind_quiet_lift, bind_lift.
  destruct (parse_personal_page soup person_div_id)
    as [[[full_name img] degree_string]|e]; [|by rewrite app_nil_r].
  rewrite Lbind_quiet_lift, bind_lift.
  destruct (transform_full_name full_name) as [names|e] eqn:Hnames;
    [|by rewrite app_nil_r].
  rewrite Lbind_quiet_lift, bind_lift.
  destruct (transform_degree lower degree_string) as [degree|e];
    [|by rewrite app_nil_r].
  rewrite Lbind_quiet_lift.
  apply transform_full_name_keys in Hnames as (l & f & mid & ->).
  rewrite !lookup_insert_ne
    by (apply (bool_decide_unpack _); vm_compute; reflexivity).
  rewrite lookup_insert_eq, Lbind_log. unfold mret, M_ret, L_ret.
  by rewrite <- app_assoc.
Qed.

Lemma printed_records_app (a b : list printed) :
  printed_records (a ++ b) = printed_records a ++ printed_records b.
Proof. apply omap_app. Qed.

Lemma page_lines_silent (self : Parser) (link : str) (index : nat)
    (r : result (gmap str value)) :
  silent_mode self = true -> page_lines self link index r = [].
Proof.
  intros Hs. unfold page_lines. rewrite log_lines_silent by done.
  destruct r as [record|e]; [|done].
  destruct (record !! u "last_name"); [|done]. by apply log_lines_silent.
Qed.

Lemma page_lines_not_verbose (self : Parser) (link : str) (index : nat)
    (r : result (gmap str value)) :
  verbose_mode self = false ->
  printed_records (page_lines self link index r) = [].
Proof.
  intros Hv. unfold page_lines, log_lines. rewrite Hv.
  destruct (silent_mode self); [by repeat case_match|].
  destruct r as [record|e]; [|done].
  destruct (record !! u "last_name"); [|done]. by case_decide.
Qed.

Lemma page_lines_Ok (self : Parser) (link : str) (index : nat)
    (record : gmap str value) (last_name : value) :
  record !! u "last_name" = Some last_name ->
  printed_records (page_lines self link index (Ok record))
  = (if negb (silent_mode self) && verbose_mode self then [record] else [])
  /\ length (page_lines self link index (Ok record)) = lines_per_page self.
Proof.
  intros Hlast. unfold page_lines, log_lines, lines_per_page. rewrite Hlast.
  rewrite decide_False by (intros ->; by rewrite lookup_empty in Hlast).
  by destruct (silent_mode self), (verbose_mode self).
Qed.

Lemma get_personal_page_last_name (self : Parser) (link : str) (index : nat)
    (m m' : machine) (record : gmap str value) :
  get_personal_page self link index m = (Ok record, m') ->
  is_Some (record !! u "last_name").
Proof.
  intros Hrun.
  apply get_personal_page_Ok_inv in Hrun
    as (soup & full_name & img & degree_string & names & degree
        & _ & _ & Hnames & _ & ->).
  apply transform_full_name_keys in Hnames as (l & f & mid & ->).
  rewrite !lookup_insert_ne
    by (apply (bool_decide_unpack _); vm_compute; reflexivity).
  rewrite lookup_insert_eq. by eexists.
Qed.

(** One item of the logging generator does what the silent item does and
    appends its lines. *)
Lemma personal_page_logged_of_run (self : Parser) (staff_links : list str)
    (link : str) (m : machine) (out : list printed) :
  exists lines : list printed,
    personal_page_logged_of self staff_links link unrestricted m out
    = (let (r, m') := personal_page_of self staff_links link m in
       (r, m', out ++ lines))
    /\ (silent_mode self = true -> lines = [])
    /\ (verbose_mode self = false -> printed_records lines = [])
    /\ (forall record m',
          personal_page_of self staff_links link m = (Ok record, m') ->
          printed_records lines
          = (if negb (silent_mode self) && verbose_mode self
             then [record] else [])
          /\ length lines = lines_per_page self).
Proof.
  unfold personal_page_logged_of, personal_page_of.
  destruct (py_index staff_links link) as [index|e].
  - exists (page_lines self link index
              (get_personal_page self link index m).1).
    rewrite Lbind_quiet_lift, bind_lift, get_personal_page_logged_run.
    destruct (get_personal_page self link index m) as [r m1] eqn:Hpage.
    split; [done|]. split; [apply page_lines_silent|].
    split; [apply page_lines_not_verbose|].
    intros record m' [= -> <-].
    destruct (get_personal_page_last_name _ _ _ _ _ _ Hpage) as [v Hv].
    by eapply page_lines_Ok.
  - exists []. rewrite Lbind_quiet_lift, bind_lift, app_nil_r.
    split; [done|]. split; [done|]. split; [done|]. by intros record m' ?.
Qed.

(** The logging loop does what the silent loop does and appends the lines
    of the profiles it went through. *)
Lemma run_loop_logged_run (self : Parser) (staff_links pending : list str)
    (acc : list (gmap str value)) (m m' : machine) (out out' : list printed)
    (r : result (list (gmap str value))) :
  run_loop_logged (map (personal_page_logged_of self staff_links) pending)
    acc unrestricted m out = (r, m', out') ->
  run_loop (map (personal_page_of self staff_links) pending) acc m = (r, m')
  /\ exists new : list printed,
       out' = out ++ new
       /\ (silent_mode self = true -> new = [])
       /\ (verbose_mode self = false -> printed_records new = [])
       /\ (forall all, r = Ok all ->
             exists rs, all = acc ++ rs
               /\ length rs = length pending
               /\ printed_records new
                  = (if negb (silent_mode self) && verbose_mode self
                     then rs else [])
               /\ length new = (lines_per_page self * length pending)%nat).
Proof.
  revert acc m out.
  induction pending as [|link pending IH]; intros acc m out; simpl.
  - intros [= <- <- <-]. split; [done|]. exists [].
    rewrite app_nil_r. repeat split; try done.
    intros all [= <-]. exists []. rewrite app_nil_r, Nat.mul_0_r.
    by destruct (negb (silent_mode self) && verbose_mode self).
  - destruct (personal_page_logged_of_run self staff_links link m out)
      as (lines & Hitem & Hsilent & Hquiet & Hok).
    destruct (personal_page_of self staff_links link m) as [[record|e] m1]
      eqn:Hpage.
    + rewrite (Lbind_Ok _ _ _ _ _ _ _ _ Hitem), (bind_Ok _ _ _ _ _ Hpage).
      intros Hrest. apply IH in Hrest
        as (Hrun & new & -> & Hsilent' & Hquiet' & Hok').
      split; [done|]. exists (lines ++ new).
      split; [by rewrite app_assoc|].
      split; [intros Hs; by rewrite Hsilent, Hsilent'|].
      split; [intros Hv; by rewrite printed_records_app, Hquiet, Hquiet'|].
      intros all Hall. destruct (Hok' all Hall) as (rs & -> & Hlen & Hrs & Hn).
      destruct (Hok record m1 eq_refl) as [Hrec Hlines].
      exists (record :: rs). split; [by rewrite <- app_assoc|].
      split; [simpl; by rewrite Hlen|].
      split.
      * rewrite printed_records_app, Hrec, Hrs.
        by destruct (negb (silent_mode self) && verbose_mode self).
      * rewrite length_app, Hlines, Hn. lia.
    + rewrite (Lbind_Err _ _ _ _ _ _ _ _ Hitem), (bind_Err _ _ _ _ _ Hpage).
      intros [= <- <- <-]. split; [done|]. exists lines.
      split; [done|]. split; [done|]. split; [done|]. by intros all ?.
Qed.

Lemma write_logged_run (self : Parser) (filepath : str)
    (rs : list (gmap str value)) (m : machine) (out : list printed) :
  write_logged self filepath rs unrestricted m out
  = match write self filepath rs m with
    | (Ok _, m1) =>
      (Ok tt, m1, out ++ log_lines self (msg_written filepath) None)
    | (Err e, m1) => (Err e, m1, out)
    end.
Proof.
  rewrite write_outcome. unfold write_logged, write_result_logged.
  assert (Hwrite : forall d,
    (quiet (write_result self filepath d)
     ≫= λ _ : unit, log self (msg_written filepath) None) unrestricted m out
    = match write_result self filepath d m with
      | (Ok _, m1) =>
        (Ok tt, m1, out ++ log_lines self (msg_written filepath) None)
      | (Err e, m1) => (Err e, m1, out)
      end).
  { intros d. rewrite Lbind_quiet.
    destruct (write_result self filepath d m) as [[[]|e] m1]; [|done].
    apply log_run. }
  destruct rs as [|record rs].
  - rewrite Lbind_quiet. unfold get_results.
    destruct (results m) as [d|]; [|done]. apply Hwrite.
  - unfold mret, L_ret.
    rewrite (Lbind_Ok _ _ unrestricted m m out out (record :: rs));
      [apply Hwrite|done].
Qed.

Lemma printed_records_message (self : Parser) (message : str) :
  printed_records (log_lines self message None) = [].
Proof. rewrite log_lines_message. by destruct (silent_mode self). Qed.

Lemma length_message (self : Parser) (message : str) :
  length (log_lines self message None)
  = if silent_mode self then 0%nat else 1%nat.
Proof. rewrite log_lines_message. by destruct (silent_mode self). Qed.

(** What [run_logged] does on a console that takes every item: the outcome
    and the state of [run], and lines added to the console. *)
Lemma run_logged_run (self : Parser) (m m' : machine) (out out' : list printed)
    (r : result unit) :
  run_logged self unrestricted m out = (r, m', out') ->
  run self m = (r, m')
  /\ exists new : list printed,
       out' = out ++ new
       /\ (silent_mode self = true -> new = [])
       /\ (verbose_mode self = false -> printed_records new = [])
       /\ (r = Ok tt ->
           exists rs, results m' = Some rs
             /\ printed_records new
                = (if negb (silent_mode self) && verbose_mode self
                   then rs else [])
             /\ length new
                = ((if silent_mode self then 0
                    else 5 + match file_path self with
                             | Some (_ :: _) => 1
                             | _ => 0
                             end)
                   + lines_per_page self * length rs)%nat).
Proof.
  intros H. pose proof (run_stages self m) as Hst. unfold run_logged in H.
  rewrite Lbind_log in H.
  pose proof (get_staff_list_logged_run self m
                (out ++ log_lines self (msg_fetching self) None)) as Hlist.
  destruct (get_staff_list self m) as [[staff_links|e] m1].
  2: { rewrite (Lbind_Err _ _ _ _ _ _ _ _ Hlist) in H.
       injection H as <- <- <-. split; [done|]. eexists.
       split; [by rewrite <- app_assoc|].
       split; [intros Hs; by rewrite !log_lines_silent|].
       split; [intros _; by rewrite printed_records_app,
                 !printed_records_message|].
       done. }
  rewrite (Lbind_Ok _ _ _ _ _ _ _ _ Hlist), !Lbind_log in H. simpl in H.
  change (get_personal_data_logged self staff_links)
    with (map (personal_page_logged_of self staff_links) staff_links) in H.
  change (get_personal_data self staff_links)
    with (map (personal_page_of self staff_links) staff_links) in Hst.
  match type of H with
  | (run_loop_logged ?p ?a ≫= _) unrestricted ?m0 ?o0 = _ =>
    destruct (run_loop_logged p a unrestricted m0 o0) as [[r2 m2] out2]
      eqn:Hloop
  end.
  pose proof (run_loop_logged_run _ _ _ _ _ _ _ _ _ Hloop)
    as (Hrun & new & -> & Hs & Hq & Hok).
  rewrite Hrun in Hst.
  destruct r2 as [rs|e].
  2: { rewrite (Lbind_Err _ _ _ _ _ _ _ _ Hloop) in H.
       injection H as <- <- <-. split; [done|]. eexists.
       split; [by rewrite <- !app_assoc|].
       split; [intros Hsm; by rewrite !log_lines_silent, Hs|].
       split; [intros Hvm; by rewrite !printed_records_app,
                 !printed_records_message, Hq|].
       done. }
  rewrite (Lbind_Ok _ _ _ _ _ _ _ _ Hloop) in H.
  destruct (Hok rs eq_refl) as (rs' & Hrs & Hlen & Hrec & Hn).
  simpl in Hrs. subst rs'.
  assert (Hdone : forall (m3 : machine) (o3 tail : list printed) (k : nat),
    run self m = set_results rs m3 ->
    printed_records tail = [] ->
    (silent_mode self = true -> tail = []) ->
    length tail = (if silent_mode self then 0%nat else k) ->
    (k = match file_path self with Some (_ :: _) => 1 | _ => 0 end)%nat ->
    o3 = ((((((out ++ log_lines self (msg_fetching self) None)
              ++ log_lines self (msg_fetching_list self) None)
             ++ log_lines self (msg_fetched_list staff_links) None)
            ++ log_lines self [] None)
           ++ log_lines self (msg_found staff_links) None)
          ++ new) ++ tail ->
    quiet (set_results rs) unrestricted m3 o3 = (r, m', out') ->
    run self m = (r, m')
    /\ exists new0 : list printed,
         out' = out ++ new0
         /\ (silent_mode self = true -> new0 = [])
         /\ (verbose_mode self = false -> printed_records new0 = [])
         /\ (r = Ok tt ->
             exists rs0, results m' = Some rs0
               /\ printed_records new0
                  = (if negb (silent_mode self) && verbose_mode self
                     then rs0 else [])
               /\ length new0
                  = ((if silent_mode self then 0
                      else 5 + match file_path self with
                               | Some (_ :: _) => 1
                               | _ => 0
                               end)
                     + lines_per_page self * length rs0)%nat)).
  { intros m3 o3 tail k Hset Htail Htail_s Hklen Hk ->.
    unfold quiet, set_results.
    intros [= <- <- <-]. split; [by rewrite Hset|]. eexists.
    split; [by rewrite <- !app_assoc|].
    split; [intros Hsm; by rewrite !log_lines_silent, Hs, Htail_s|].
    split; [intros Hvm; by rewrite !printed_records_app,
              !printed_records_message, Hq, Htail|].
    intros _. exists rs. split; [done|]. split.
    - by rewrite !printed_records_app, !printed_records_message, Hrec, Htail,
        app_nil_r.
    - rewrite !length_app, !length_message, Hn, Hklen, Hlen, <- Hk.
      destruct (silent_mode self); lia. }
  destruct (file_path self) as [[|c path]|] eqn:Hpath.
  - rewrite (Lbind_Ok _ _ unrestricted m2 m2 _ _ tt) in H by done.
    refine (Hdone m2 _ [] 0%nat Hst _ _ _ _ _ H); try done.
    + by destruct (silent_mode self).
    + by rewrite app_nil_r.
  - pose proof (write_logged_run self (c :: path) rs m2
                  ((((((out ++ log_lines self (msg_fetching self) None)
                       ++ log_lines self (msg_fetching_list self) None)
                      ++ log_lines self (msg_fetched_list staff_links) None)
                     ++ log_lines self [] None)
                    ++ log_lines self (msg_found staff_links) None)
                   ++ new)) as Hw.
    destruct (write self (c :: path) rs m2) as [[[]|e] m3].
    + rewrite (Lbind_Ok _ _ _ _ _ _ _ _ Hw) in H.
      refine (Hdone m3 _ (log_lines self (msg_written (c :: path)) None)
                1%nat Hst _ _ _ _ _ H); try done.
      * apply printed_records_message.
      * intros Hsm. by apply log_lines_silent.
      * apply length_message.
    + rewrite (Lbind_Err _ _ _ _ _ _ _ _ Hw) in H.
      injection H as <- <- <-. split; [done|]. eexists.
      split; [by rewrite <- !app_assoc|].
      split; [intros Hsm; by rewrite !log_lines_silent, Hs|].
      split; [intros Hvm; by rewrite !printed_records_app,
                !printed_records_message, Hq|].
      done.
  - rewrite (Lbind_Ok _ _ unrestricted m2 m2 _ _ tt) in H by done.
    refine (Hdone m2 _ [] 0%nat Hst _ _ _ _ _ H); try done.
    + by destruct (silent_mode self).
    + by rewrite app_nil_r.
Qed.

(** *** On any console *)

Lemma forallb_unrestricted (items : list printed) :
  forallb unrestricted items = true.
Proof. by induction items. Qed.

Lemma accepted_prefix_app (stdout : printed -> bool) (a b : list printed) :
  accepted_prefix stdout (a ++ b)
  = if forallb stdout a then a ++ accepted_prefix stdout b
    else accepted_prefix stdout a.
Proof.
  induction a as [|x a IH]; simpl; [done|].
  destruct (stdout x); simpl; [|done].
  rewrite IH. by destruct (forallb stdout a).
Qed.

Lemma printed_records_accepted_prefix (stdout : printed -> bool)
    (items : list printed) :
  printed_records items = [] ->
  printed_records (accepted_prefix stdout items) = [].
Proof.
  induction items as [|x items IH]; simpl; [done|].
  intros Hnone. destruct (stdout x); [|done].
  destruct x as [message|pretty data]; [by apply IH|done].
Qed.

Lemma uniform_ret {A} (a : A) : uniform (mret a : L A).
Proof.
  intros stdout m out. unfold mret, L_ret. simpl. by rewrite app_nil_r.
Qed.

Lemma uniform_print (x : printed) : uniform (print x).
Proof.
  intros stdout m out. unfold print, unrestricted. simpl.
  destruct (stdout x); simpl; [done|]. exists m. by rewrite app_nil_r.
Qed.

Lemma uniform_quiet {A} (c : M A) : uniform (quiet c).
Proof.
  intros stdout m out. unfold quiet. destruct (c m) as [r m']. simpl.
  by rewrite app_nil_r.
Qed.

Lemma uniform_bind {A B} (c : L A) (k : A -> L B) :
  uniform c -> (forall a, uniform (k a)) -> uniform (c ≫= k).
Proof.
  intros Hc Hk stdout m out. pose proof (Hc stdout m out) as Hc1.
  unfold mbind, L_bind.
  destruct (c unrestricted m []) as [[[a|e] m1] n1].
  - pose proof (Hk a unrestricted m1 n1) as Hk0.
    pose proof (Hk a stdout m1 (out ++ n1)) as Hk1.
    destruct (k a unrestricted m1 []) as [[r2 m2] n2].
    rewrite forallb_unrestricted in Hk0. rewrite Hk0.
    rewrite forallb_app, accepted_prefix_app.
    destruct (forallb stdout n1); simpl.
    + rewrite Hc1. destruct (forallb stdout n2).
      * by rewrite Hk1, app_assoc.
      * destruct Hk1 as [m'' Hk1]. exists m''. by rewrite Hk1, app_assoc.
    + destruct Hc1 as [m'' Hc1]. exists m''. by rewrite Hc1.
  - destruct (forallb stdout n1).
    + by rewrite Hc1.
    + destruct Hc1 as [m'' Hc1]. exists m''. by rewrite Hc1.
Qed.

Lemma uniform_log (self : Parser) (message : str)
    (output : option (gmap str value)) :
  uniform (log self message output).
Proof.
  unfold log, log_data. destruct (silent_mode self); [apply uniform_ret|].
  destruct output as [data|]; [|apply uniform_print].
  case_decide; [apply uniform_print|].
  destruct (verbose_mode self); [|apply uniform_ret].
  apply uniform_bind; [apply uniform_print|intros _; apply uniform_print].
Qed.

Lemma uniform_get_staff_list_logged (self : Parser) :
  uniform (get_staff_list_logged self).
Proof.
  unfold get_staff_list_logged.
  apply uniform_bind; [apply uniform_log|intros _].
  apply uniform_bind; [apply uniform_quiet|intros soup].
  apply uniform_bind; [apply uniform_quiet|intros staff_members].
  apply uniform_bind; [apply uniform_log|intros _]. apply uniform_ret.
Qed.

Lemma uniform_get_personal_page_logged (self : Parser) (link : str)
    (index : nat) :
  uniform (get_personal_page_logged self link index).
Proof.
  unfold get_personal_page_logged. cbv zeta.
  apply uniform_bind; [apply uniform_log|intros _].
  apply uniform_bind; [apply uniform_quiet|intros soup].
  apply uniform_bind;
    [apply uniform_quiet|intros [[full_name img] degree_string]].
  apply uniform_bind; [apply uniform_quiet|intros result].
  apply uniform_bind; [apply uniform_quiet|intros degree].
  apply uniform_bind; [apply uniform_quiet|intros last_name].
  apply uniform_bind; [apply uniform_log|intros _]. apply uniform_ret.
Qed.

Lemma uniform_run_loop_logged (parser : list (L (gmap str value)))
    (acc : list (gmap str value)) :
  Forall uniform parser -> uniform (run_loop_logged parser acc).
Proof.
  intros Hparser. revert acc.
  induction Hparser as [|next parser Hnext _ IH]; intros acc; simpl.
  - apply uniform_ret.
  - apply uniform_bind; [done|intros result; apply IH].
Qed.

Lemma uniform_write_logged (self : Parser) (filepath : str)
    (rs : list (gmap str value)) :
  uniform (write_logged self filepath rs).
Proof.
  unfold write_logged, write_result_logged.
  apply uniform_bind;
    [destruct rs; [apply uniform_quiet|apply uniform_ret]|intros d].
  apply uniform_bind; [apply uniform_quiet|intros _; apply uniform_log].
Qed.

Lemma uniform_run_logged (self : Parser) : uniform (run_logged self).
Proof.
  unfold run_logged. cbv zeta.
  apply uniform_bind; [apply uniform_log|intros _].
  apply uniform_bind; [apply uniform_get_staff_list_logged|intros staff_links].
  apply uniform_bind; [apply uniform_log|intros _].
  apply uniform_bind; [apply uniform_log|intros _].
  apply uniform_bind.
  { apply uniform_run_loop_logged. unfold get_personal_data_logged.
    apply Forall_map, Forall_true. intros link.
    apply uniform_bind;
      [apply uniform_quiet
      |intros index; apply uniform_get_personal_page_logged]. }
  intros rs. apply uniform_bind; [|intros _; apply uniform_quiet].
  destruct (file_path self) as [[|c path]|];
    [apply uniform_ret|apply uniform_write_logged|apply uniform_ret].
Qed.

(** [run_logged] against [run]: on a console that takes every item the
    run prints, the outcome and the state are those of [run]; on any other,
    the run stops with [UnicodeEncodeError] at the first item the console
    does not take. *)
Lemma run_logged_erasure (self : Parser) (stdout : printed -> bool)
    (m : machine) (out : list printed) :
  match run self m with
  | (r, m') =>
    if forallb stdout (printed_by (run_logged self) m)
    then run_logged self stdout m out
         = (r, m', out ++ printed_by (run_logged self) m)
    else exists m'',
           run_logged self stdout m out
           = (Err UnicodeEncodeError, m'',
              out ++ accepted_prefix stdout (printed_by (run_logged self) m))
  end.
Proof.
  pose proof (uniform_run_logged self stdout m out) as H. unfold printed_by.
  destruct (run_logged self unrestricted m []) as [[r m'] new] eqn:Hideal.
  apply run_logged_run in Hideal as [Hrun _]. by rewrite Hrun.
Qed.

(** What [run_logged] does on any console. *)
Lemma run_logged_outcome (self : Parser) (stdout : printed -> bool)
    (m m' : machine) (out out' : list printed) (r : result unit) :
  run_logged self stdout m out = (r, m', out') ->
  exists new : list printed,
    out' = out ++ new
    /\ (silent_mode self = true -> new = [])
    /\ (verbose_mode self = false -> printed_records new = [])
    /\ (r = Ok tt ->
        exists rs, results m' = Some rs
          /\ printed_records new
             = (if negb (silent_mode self) && verbose_mode self
                then rs else [])
          /\ length new
             = ((if silent_mode self then 0
                 else 5 + match file_path self with
                          | Some (_ :: _) => 1
                          | _ => 0
                          end)
                + lines_per_page self * length rs)%nat).
Proof.
  intros H. pose proof (uniform_run_logged self stdout m out) as Hu.
  destruct (run_logged self unrestricted m []) as [[r0 m0] new0] eqn:Hideal.
  apply run_logged_run in Hideal as (_ & new & Heq & Hs & Hq & Hok).
  simpl in Heq. subst new0.
  destruct (forallb stdout new).
  - rewrite Hu in H. injection H as <- <- <-. by exists new.
  - destruct Hu as [m'' Hu]. rewrite Hu in H. injection H as <- <- <-.
    exists (accepted_prefix stdout new). split; [done|].
    split; [intros Hsm; by rewrite (Hs Hsm)|].
    split; [intros Hv; by apply printed_records_accepted_prefix, Hq|].
    intros [=].
Qed.

(** *** The [results] attribute *)














(** ** Runs on a console *)

(** Enough for a run to complete: the index page yields [staff_links],
    every profile is collected, the console takes every item the run prints
    and, if an output path is configured, there is at least one record, the
    path can be opened and no key or string of a record holds a surrogate
    code point. The run then stores the records in [results] and, with an
    output path, all of them in that file, indented by 2 in pretty mode and
    not indented otherwise. *)
Theorem run_completes (self : Parser) (stdout : printed -> bool)
    (m m1 m2 : machine) (staff_links : list str)
    (rs : list (gmap str value)) (out : list printed) :
  get_staff_list self m = (Ok staff_links, m1) ->
  collected self staff_links rs m1 m2 ->
  (forall path, file_path self = Some path -> path <> [] ->
     rs <> [] /\ open_w path = None /\ json_encodable rs = true) ->
  forallb stdout (printed_by (run_logged self) m) = true ->
  run_logged self stdout m out
  = (Ok tt,
     {| net := net m2; requested := requested m2;
        files := match file_path self with
                 | Some (c :: path) =>
                   <[c :: path :=
                       {| dump_data := rs;
                          dump_indent := if pretty_output self
                                         then Some 2%nat else None;
                          dump_complete := true |}]>
                     (files m2)
                 | _ => files m2
                 end;
        results := Some rs |},
     out ++ printed_by (run_logged self) m).
Proof.
  intros Hlist Hall Hpath Hacc.
  pose proof (run_logged_erasure self stdout m out) as H.
  by rewrite (run_collected _ _ _ _ _ _ Hlist Hall Hpath), Hacc in H.
Qed.

(** On a parser that already holds [results] from an earlier run, a run
    that finds no links writes those earlier records to the output file,
    and then sets [results] to the empty list. This takes a path that can
    be opened, earlier records without a surrogate code point, and a
    console that takes what the run prints. *)
Theorem run_writes_stale_results (self : Parser) (stdout : printed -> bool)
    (m m1 : machine) (old : list (gmap str value)) (path : str)
    (out : list printed) :
  results m = Some old ->
  file_path self = Some path -> path <> [] -> open_w path = None ->
  json_encodable old = true ->
  get_staff_list self m = (Ok [], m1) ->
  forallb stdout (printed_by (run_logged self) m) = true ->
  run_logged self stdout m out
  = (Ok tt,
     {| net := net m1; requested := requested m1;
        files := <[path := {| dump_data := old;
                              dump_indent := if pretty_output self
                                             then Some 2%nat else None;
                              dump_complete := true |}]>
                   (files m1);
        results := Some [] |},
     out ++ printed_by (run_logged self) m).
Proof.
  intros Hold Hpath Hne Hopen Hjson Hlist Hacc.
  pose proof (run_logged_erasure self stdout m out) as H.
  by rewrite (run_stale _ _ _ _ _ Hold Hpath Hne Hopen Hjson Hlist), Hacc in H.
Qed.

(** A surrogate code point in a record comes to light only when the file
    is written: if every profile is collected, the output path can be opened
    and the console takes every item the run prints, but a key or a string
    of some record holds a surrogate, then the run fails with
    [UnicodeEncodeError] after the last request. It leaves a truncated dump
    in the output file, and the [results] attribute as it was before the
    run. *)
Theorem run_dump_fails (self : Parser) (stdout : printed -> bool)
    (m m1 m2 : machine) (staff_links : list str)
    (rs : list (gmap str value)) (path : str) (out : list printed) :
  get_staff_list self m = (Ok staff_links, m1) ->
  collected self staff_links rs m1 m2 ->
  file_path self = Some path -> path <> [] -> open_w path = None ->
  json_encodable rs = false ->
  forallb stdout (printed_by (run_logged self) m) = true ->
  run_logged self stdout m out
  = (Err UnicodeEncodeError,
     {| net := net m2; requested := requested m2;
        files := <[path := {| dump_data := rs;
                              dump_indent := if pretty_output self
                                             then Some 2%nat else None;
                              dump_complete := false |}]>
                   (files m2);
        results := results m |},
     out ++ printed_by (run_logged self) m).
Proof.
  intros Hlist Hall Hpath Hne Hopen Hjson Hacc.
  pose proof (run_logged_erasure self stdout m out) as H.
  rewrite (run_truncated _ _ _ _ _ _ _ Hlist Hall Hpath Hne Hopen Hjson), Hacc
    in H.
  apply get_staff_list_requests in Hlist as (_ & _ & Hr1).
  apply collected_requests in Hall as [(_ & _ & Hr2) _].
  by rewrite <- Hr1, <- Hr2.
Qed.



(** In silent mode a run prints nothing, whatever its outcome. *)
Theorem run_logged_silent (self : Parser) (stdout : printed -> bool)
    (m m' : machine) (out out' : list printed) (r : result unit) :
  silent_mode self = true ->
  run_logged self stdout m out = (r, m', out') ->
  out' = out.
Proof.
  intros Hs H. apply run_logged_outcome in H as (new & -> & Hnew & _).
  by rewrite (Hnew Hs), app_nil_r.
Qed.

(** In verbose mode a completed run prints every record it stores in
    [results], once each and in the same order. *)
Theorem run_logged_verbose_records (self : Parser) (stdout : printed -> bool)
    (m m' : machine) (out out' : list printed) :
  silent_mode self = false -> verbose_mode self = true ->
  run_logged self stdout m out = (Ok tt, m', out') ->
  exists (new : list printed) (rs : list (gmap str value)),
    out' = out ++ new
    /\ results m' = Some rs
    /\ printed_records new = rs.
Proof.
  intros Hs Hv H.
  apply run_logged_outcome in H as (new & -> & _ & _ & Hok).
  destruct (Hok eq_refl) as (rs & Hres & Hrec & _).
  exists new, rs. rewrite Hs, Hv in Hrec. done.
Qed.

(** Without verbose mode a run prints no record, whatever its outcome, and
    the message that a staff member was fetched is not printed either: a
    completed run that is not silent prints five lines, one line per
    profile, and one more line if it wrote the output file. *)
Theorem run_logged_default_lines (self : Parser) (stdout : printed -> bool)
    (m m' : machine) (out out' : list printed) (r : result unit) :
  verbose_mode self = false ->
  run_logged self stdout m out = (r, m', out') ->
  exists new : list printed,
    out' = out ++ new
    /\ printed_records new = []
    /\ (r = Ok tt -> silent_mode self = false ->
        exists rs, results m' = Some rs
          /\ length new
             = (5 + length rs
                + match file_path self with
                  | Some (_ :: _) => 1
                  | _ => 0
                  end)%nat).
Proof.
  intros Hv H.
  apply run_logged_outcome in H as (new & -> & _ & Hquiet & Hok).
  exists new. split; [done|]. split; [by apply Hquiet|].
  intros Hr Hs. destruct (Hok Hr) as (rs & Hres & _ & Hlen).
  exists rs. split; [done|]. rewrite Hlen. unfold lines_per_page.
  rewrite Hs, Hv. lia.
Qed.

End Pipeline.

Arguments get_html_parser {world}.
Arguments get_staff_list {world}.
Arguments get_personal_page lower {world}.
Arguments run lower {world}.
Arguments main lower {world}.
Arguments run_logged lower {world}.
Arguments collected lower {world}.
Arguments requests_only {world}.
Arguments printed_by {world A}.

Example degrees_code_points :
  degrees =
  [ [1087; 1088; 1077; 1087; 1086; 1076; 1072; 1074; 1072; 1090; 1077; 1083; 1100];
    [1089; 1090; 1072; 1088; 1096; 1080; 1081; 32;
     1087; 1088; 1077; 1087; 1086; 1076; 1072; 1074; 1072; 1090; 1077; 1083; 1100];
    [1076; 1086; 1094; 1077; 1085; 1090];
    [1087; 1088; 1086; 1092; 1077; 1089; 1089; 1086; 1088];
    [1072; 1089; 1089; 1080; 1089; 1090; 1077; 1085; 1090] ].
Proof. reflexivity. Qed.

Example transform_degree_docent :
  transform_degree lower_table (u "Доцент") = Ok 2%Z.
Proof. vm_compute. reflexivity. Qed.

Example transform_full_name_three :
  transform_full_name (u "Иванов Иван  Иванович") =
  Ok {[ u "last_name" := VStr (u "Иванов");
        u "first_name" := VStr (u "Иван");
        u "middle_name" := VStr (u "Иванович") ]}.
Proof. vm_compute. reflexivity. Qed.

Example index_page_links :
  parse_staff_links index_page (u "Pages") = Ok [u "/p/a.htm"; u "/p/b.htm"].
Proof. vm_compute. reflexivity. Qed.

Example page_a_fields :
  parse_personal_page (document [container_a]) person_div_id =
  Ok (u "Иванов Иван Иванович", u "/img/a.jpg", u "Доцент").
Proof. vm_compute. reflexivity. Qed.

Example two_anchor_links :
  parse_staff_links (document [two_anchor_container]) (u "Pages")
  = Ok [u "/p/a.htm"; u "/p/b.htm"].
Proof. vm_compute. reflexivity. Qed.

Example run_sample_site :
  run lower_table (serve (site index_page container_b)) always_open
      (quiet_parser (Some (u "staff.json"))) fresh
  = (Ok tt,
     {| net := tt;
        requested := [Parser_base_url; url_a; url_b];
        files := {[ u "staff.json" :=
                      {| dump_data := [record_a; record_b];
                         dump_indent := None;
                         dump_complete := true |} ]};
        results := Some [record_a; record_b] |}).
Proof. vm_compute. reflexivity. Qed.

(** A name with a surrogate code point goes through the pipeline up to
    [json.dump], which raises and leaves a truncated file; [results] is not
    assigned. *)
Example run_surrogate_dump :
  run lower_table (serve (site index_page container_surrogate)) always_open
      (quiet_parser (Some (u "staff.json"))) fresh
  = (Err UnicodeEncodeError,
     {| net := tt;
        requested := [Parser_base_url; url_a; url_b];
        files := {[ u "staff.json" :=
                      {| dump_data := [record_a; record_surrogate];
                         dump_indent := None;
                         dump_complete := false |} ]};
        results := None |}).
Proof. vm_compute. reflexivity. Qed.

(** In verbose mode the same name stops the run earlier, at the message
    that the staff member was fetched. *)
Example run_surrogate_print :
  run_logged lower_table (serve (site index_page container_surrogate))
    always_open verbose_parser utf8_console fresh []
  = (Err UnicodeEncodeError, after_requests [Parser_base_url; url_a; url_b],
     interrupted_console).
Proof. vm_compute. reflexivity. Qed.

(** ** The theorems at concrete inputs *)

Lemma transform_degree_position_witness :
  transform_degree lower_table (u "Доцент") = Ok 2%Z
  /\ transform_degree lower_table (u "Лаборант") = Ok 5%Z.
Proof.
  split.
  - apply (proj1 (transform_degree_position lower_table (u "Доцент"))
             2%nat (u "доцент")); vm_compute; reflexivity.
  - apply (proj2 (transform_degree_position lower_table (u "Лаборант"))).
    apply (bool_decide_unpack _). vm_compute. reflexivity.
Defined.

(** C1 as the specification states it fails: with a leading space the trimmed
    lower-cased label is the label at position 2, and [transform_degree]
    answers 5. *)
Lemma transform_degree_leading_space :
  strip (lower_table (u " доцент")) = u "доцент"
  /\ trimmed_degree lower_table (u " доцент") = 2%Z
  /\ transform_degree lower_table (u " доцент") = Ok 5%Z.
Proof.
  split; [vm_compute; reflexivity|]. split; vm_compute; reflexivity.
Qed.

Lemma transform_full_name_tokens_witness :
  split (u "Иванов  Иван Иванович   оглы Младший")
  = [u "Иванов"; u "Иван"; u "Иванович"; u "оглы"; u "Младший"]
  /\ split (u "Иванов Иван") = [u "Иванов"; u "Иван"]
  /\ transform_full_name (u "Иванов  Иван Иванович   оглы Младший")
     = Ok {[ u "last_name" := VStr (u "Иванов");
             u "first_name" := VStr (u "Иван");
             u "middle_name" := VStr (u "Иванович оглы Младший") ]}
  /\ transform_full_name (u "Иванов Иван")
     = Ok {[ u "last_name" := VStr (u "Иванов");
             u "first_name" := VStr (u "Иван");
             u "middle_name" := VStr [] ]}.
Proof.
  split; [vm_compute; reflexivity|]. split; [vm_compute; reflexivity|]. split.
  - rewrite (transform_full_name_tokens
               (u "Иванов  Иван Иванович   оглы Младший")
               (u "Иванов") (u "Иван") [u "Иванович"; u "оглы"; u "Младший"])
      by (vm_compute; reflexivity).
    vm_compute. reflexivity.
  - apply (transform_full_name_tokens (u "Иванов Иван")
             (u "Иванов") (u "Иван") []).
    vm_compute. reflexivity.
Defined.

Lemma transform_full_name_short_witness :
  transform_full_name (u "Иванов") = Err IndexError
  /\ transform_full_name [] = Err IndexError.
Proof.
  split; apply transform_full_name_short; vm_compute; lia.
Defined.

Lemma parse_staff_links_hrefs_witness :
  descendants index_page = [] ++ index_container :: descendants index_container
  /\ omap anchor_href (descendants index_container)
     = [u "/p/a.htm"; u "/p/b.htm"]
  /\ parse_staff_links index_page (u "Pages")
     = Ok (omap anchor_href (descendants index_container)).
Proof.
  split; [vm_compute; reflexivity|]. split; [vm_compute; reflexivity|].
  apply (parse_staff_links_hrefs index_page index_container (u "Pages")
           [] (descendants index_container)).
  - vm_compute. discriminate.
  - vm_compute. reflexivity.
  - vm_compute. reflexivity.
  - constructor.
Defined.

(** C4 as the specification states it fails: the page contains an element with the
    container id, two anchors lie below that element, and
    [parse_staff_links] raises [AttributeError] because the element is not a
    [div]. *)
Lemma parse_staff_links_span :
  descendants span_index_page = span_container :: descendants span_container
  /\ has_id (u "Pages") span_container = true
  /\ omap anchor_href (descendants span_container)
     = [u "/p/a.htm"; u "/p/b.htm"]
  /\ parse_staff_links span_index_page (u "Pages") = Err AttributeError.
Proof.
  split; [vm_compute; reflexivity|]. split; [vm_compute; reflexivity|].
  split; vm_compute; reflexivity.
Qed.

Lemma run_one_record_per_link_witness :
  exists (index : node) (staff_links : list str) (rs : list (gmap str value))
         (m1 m2 : machine unit),
    get_html_parser (serve (site index_page container_b))
      (base_url (quiet_parser None)) fresh
    = (Ok index, m1)
    /\ parse_staff_links index staff_div_id = Ok staff_links
    /\ collected lower_table (serve (site index_page container_b))
         (quiet_parser None) staff_links rs m1 m2
    /\ length rs = length staff_links
    /\ results
         {| net := tt; requested := [Parser_base_url; url_a; url_b];
            files := ∅; results := Some [record_a; record_b] |}
       = Some rs.
Proof.
  exact (run_one_record_per_link lower_table unit
           (serve (site index_page container_b)) always_open
           (quiet_parser None) fresh
           {| net := tt; requested := [Parser_base_url; url_a; url_b];
              files := ∅; results := Some [record_a; record_b] |}
           ltac:(vm_compute; reflexivity)).
Defined.

Lemma get_personal_page_img_witness :
  record_a !! u "img" = Some (VStr (personal_page_prefix ++ u "/img/a.jpg"))
  /\ record_b !! u "img" = Some (VStr default_image).
Proof.
  split.
  - apply (proj2 (get_personal_page_img lower_table unit
             (serve (site index_page container_b)) (quiet_parser None)
             (u "/p/a.htm") 0 fresh (after_requests [url_a]) record_a
             (document [container_a]) container_a tt
             ltac:(vm_compute; reflexivity) ltac:(vm_compute; reflexivity)
             ltac:(vm_compute; reflexivity))
           (image (u "/img/a.jpg")) (u "/img/a.jpg"));
      vm_compute; reflexivity.
  - apply (proj1 (get_personal_page_img lower_table unit
             (serve (site index_page container_b)) (quiet_parser None)
             (u "/p/b.htm") 1 fresh (after_requests [url_b]) record_b
             (document [container_b]) container_b tt
             ltac:(vm_compute; reflexivity) ltac:(vm_compute; reflexivity)
             ltac:(vm_compute; reflexivity))).
    apply (bool_decide_unpack _). vm_compute. reflexivity.
Defined.

(** C6 as the specification states it fails: an image is present, its source path
    is empty, and the record carries [default_image], which is not the site
    prefix followed by the source path. *)
Lemma get_personal_page_empty_src :
  find (u "img") [] container_empty_src = Some (image [])
  /\ get_personal_page lower_table
       (serve (site index_page container_empty_src)) (quiet_parser None)
       (u "/p/b.htm") 1 fresh
     = (Ok record_b, after_requests [url_b])
  /\ record_b !! u "img" = Some (VStr default_image)
  /\ default_image <> personal_page_prefix ++ [].
Proof.
  split; [vm_compute; reflexivity|]. split; [vm_compute; reflexivity|].
  split; [vm_compute; reflexivity|]. vm_compute. discriminate.
Qed.

Lemma run_no_container_witness :
  parse_staff_links bare_index_page staff_div_id = Err AttributeError
  /\ exists m' : machine unit,
       run lower_table (serve (site bare_index_page container_b)) always_open
           (quiet_parser (Some (u "staff.json"))) fresh
       = (Err AttributeError, m')
       /\ requests_only [base_url (quiet_parser (Some (u "staff.json")))]
            fresh m'.
Proof.
  exact (run_no_container lower_table unit
           (serve (site bare_index_page container_b)) always_open
           (quiet_parser (Some (u "staff.json"))) fresh bare_index_page tt
           ltac:(vm_compute; reflexivity)
           ltac:(apply (bool_decide_unpack _); vm_compute; reflexivity)).
Defined.

Lemma run_aborts_on_failure_witness :
  run lower_table (serve (site index_page container_one_name)) always_open
      (quiet_parser (Some (u "staff.json"))) fresh
  = (Err IndexError, after_requests [Parser_base_url; url_a; url_b])
  /\ requests_only
       (base_url (quiet_parser (Some (u "staff.json")))
        :: map (app personal_page_prefix) ([u "/p/a.htm"] ++ [u "/p/b.htm"]))
       fresh (after_requests [Parser_base_url; url_a; url_b]).
Proof.
  exact (run_aborts_on_failure lower_table unit
           (serve (site index_page container_one_name)) always_open
           (quiet_parser (Some (u "staff.json")))
           fresh (after_requests [Parser_base_url])
           (after_requests [Parser_base_url; url_a])
           (after_requests [Parser_base_url; url_a; url_b])
           [u "/p/a.htm"] [] (u "/p/b.htm") [record_a] 1 IndexError
           ltac:(vm_compute; reflexivity)
           (collected_cons lower_table unit
              (serve (site index_page container_one_name))
              (quiet_parser (Some (u "staff.json")))
              (u "/p/a.htm") [] record_a [] 0
              (after_requests [Parser_base_url])
              (after_requests [Parser_base_url; url_a])
              (after_requests [Parser_base_url; url_a])
              ltac:(vm_compute; reflexivity)
              (collected_nil lower_table unit
                 (serve (site index_page container_one_name))
                 (quiet_parser (Some (u "staff.json")))
                 (after_requests [Parser_base_url; url_a])))
           ltac:(vm_compute; reflexivity)).
Defined.

Lemma get_personal_page_record_witness :
  dom record_a = record_keys
  /\ size record_a = 5%nat
  /\ exists d : Z, record_a !! u "degree" = Some (VInt d) /\ (0 <= d <= 5)%Z.
Proof.
  exact (get_personal_page_record lower_table unit
           (serve (site index_page container_b)) (quiet_parser None)
           (u "/p/a.htm") 0 fresh (after_requests [url_a]) record_a
           ltac:(vm_compute; reflexivity)).
Defined.

Lemma run_empty_with_file_witness :
  run lower_table (serve (site empty_index_page container_b)) always_open
      (quiet_parser (Some (u "staff.json"))) fresh
  = (Err AttributeError, after_requests [Parser_base_url])
  /\ files (after_requests [Parser_base_url]) = files fresh
  /\ results (after_requests [Parser_base_url]) = None.
Proof.
  exact (run_empty_with_file lower_table unit
           (serve (site empty_index_page container_b)) always_open
           (quiet_parser (Some (u "staff.json"))) fresh
           (after_requests [Parser_base_url]) (u "staff.json")
           ltac:(reflexivity) ltac:(reflexivity)
           ltac:(vm_compute; discriminate)
           ltac:(vm_compute; reflexivity)).
Defined.

(** ** The further theorems at concrete inputs *)

Lemma transform_full_name_clean_witness :
  exists last_name first_name middle_name : str,
    ({[ u "last_name" := VStr (u "Иванов");
        u "first_name" := VStr (u "Иван");
        u "middle_name" := VStr (u "Иванович") ]} : gmap str value)
    = {[ u "last_name" := VStr last_name;
         u "first_name" := VStr first_name;
         u "middle_name" := VStr middle_name ]}
    /\ is_token last_name /\ is_token first_name
    /\ join (u " ") (split middle_name) = middle_name.
Proof.
  exact (transform_full_name_clean (u "Иванов Иван  Иванович") _
           ltac:(vm_compute; reflexivity)).
Defined.

Lemma parse_staff_links_error_witness :
  AttributeError = AttributeError
  /\ find (u "div") [(u "id", staff_div_id)] bare_index_page = None.
Proof.
  exact (parse_staff_links_error bare_index_page staff_div_id AttributeError
           ltac:(vm_compute; reflexivity)).
Defined.

Lemma parse_degree_text_witness :
  exists (p : node) (kind : string_kind) (t : str),
    find (u "p") [(u "class", u "noIndnt")] container_a = Some p
    /\ br_next_sibling p = Some (Some (NavStr kind t))
    /\ u "Доцент" `prefix_of` t
    /\ (0xA0 ∉ u "Доцент")
    /\ (0xA0 ∉ t -> u "Доцент" = t).
Proof.
  exact (parse_degree_text container_a (u "Доцент")
           ltac:(vm_compute; reflexivity)).
Defined.

Lemma parse_personal_page_KeyError_witness :
  parse_personal_page (document [container_no_src]) person_div_id
  = Err KeyError
  <-> exists image : node,
        find (u "img") [] container_no_src = Some image
        /\ attr (u "src") image = None.
Proof.
  exact (parse_personal_page_KeyError (document [container_no_src])
           container_no_src person_div_id ltac:(vm_compute; reflexivity)).
Defined.

Lemma get_personal_page_img_url_witness :
  exists url : str,
    record_a !! u "img" = Some (VStr url)
    /\ (url = default_image
        \/ exists src : str, src <> [] /\ url = personal_page_prefix ++ src).
Proof.
  exact (get_personal_page_img_url lower_table unit
           (serve (site index_page container_b)) (quiet_parser None)
           (u "/p/a.htm") 0 fresh (after_requests [url_a]) record_a
           ltac:(vm_compute; reflexivity)).
Defined.


Lemma run_requests_witness :
  exists (index : node) (staff_links : list str) (w : unit),
    serve (site index_page container_b) (base_url (quiet_parser None))
      (net fresh)
    = (Ok index, w)
    /\ parse_staff_links index staff_div_id = Ok staff_links
    /\ requested (after_run ∅)
       = requested fresh
         ++ base_url (quiet_parser None)
            :: map (app personal_page_prefix) staff_links.
Proof.
  exact (run_requests lower_table unit (serve (site index_page container_b))
           always_open (quiet_parser None) fresh (after_run ∅)
           ltac:(vm_compute; reflexivity)).
Defined.

Lemma run_completes_witness :
  printed_by
    (run_logged lower_table (serve (site index_page container_b)) always_open
       (quiet_parser (Some (u "staff.json")))) fresh
  = default_console
  /\ run_logged lower_table (serve (site index_page container_b)) always_open
       (quiet_parser (Some (u "staff.json"))) utf8_console fresh []
     = (Ok tt,
        {| net := net (after_requests [Parser_base_url; url_a; url_b]);
           requested :=
             requested (after_requests [Parser_base_url; url_a; url_b]);
           files :=
             match file_path (quiet_parser (Some (u "staff.json"))) with
             | Some (c :: path) =>
               <[c :: path :=
                   {| dump_data := [record_a; record_b];
                      dump_indent :=
                        if pretty_output
                             (quiet_parser (Some (u "staff.json")))
                        then Some 2%nat else None;
                      dump_complete := true |}]>
                 (files (after_requests [Parser_base_url; url_a; url_b]))
             | _ => files (after_requests [Parser_base_url; url_a; url_b])
             end;
           results := Some [record_a; record_b] |},
        [] ++ printed_by
                (run_logged lower_table (serve (site index_page container_b))
                   always_open (quiet_parser (Some (u "staff.json")))) fresh).
Proof.
  split; [vm_compute; reflexivity|].
  exact (run_completes lower_table unit (serve (site index_page container_b))
           always_open (quiet_parser (Some (u "staff.json"))) utf8_console
           fresh (after_requests [Parser_base_url])
           (after_requests [Parser_base_url; url_a; url_b])
           [u "/p/a.htm"; u "/p/b.htm"] [record_a; record_b] []
           ltac:(vm_compute; reflexivity)
           (collected_cons lower_table unit
              (serve (site index_page container_b))
              (quiet_parser (Some (u "staff.json")))
              (u "/p/a.htm") [u "/p/b.htm"] record_a [record_b] 0
              (after_requests [Parser_base_url])
              (after_requests [Parser_base_url; url_a])
              (after_requests [Parser_base_url; url_a; url_b])
              ltac:(vm_compute; reflexivity)
              (collected_cons lower_table unit
                 (serve (site index_page container_b))
                 (quiet_parser (Some (u "staff.json")))
                 (u "/p/b.htm") [] record_b [] 1
                 (after_requests [Parser_base_url; url_a])
                 (after_requests [Parser_base_url; url_a; url_b])
                 (after_requests [Parser_base_url; url_a; url_b])
                 ltac:(vm_compute; reflexivity)
                 (collected_nil lower_table unit
                    (serve (site index_page container_b))
                    (quiet_parser (Some (u "staff.json")))
                    (after_requests [Parser_base_url; url_a; url_b]))))
           ltac:(intros path _ _; split;
                 [discriminate|split; [reflexivity|vm_compute; reflexivity]])
           ltac:(vm_compute; reflexivity)).
Defined.

Lemma run_unwritable_witness :
  run lower_table (serve (site index_page container_b)) never_open
      (quiet_parser (Some (u "staff.json"))) fresh
  = (Err OSError, after_requests [Parser_base_url; url_a; url_b])
  /\ results (after_requests [Parser_base_url; url_a; url_b]) = results fresh
  /\ files (after_requests [Parser_base_url; url_a; url_b]) = files fresh.
Proof.
  exact (run_unwritable lower_table unit (serve (site index_page container_b))
           never_open (quiet_parser (Some (u "staff.json")))
           fresh (after_requests [Parser_base_url])
           (after_requests [Parser_base_url; url_a; url_b])
           [u "/p/a.htm"; u "/p/b.htm"] [record_a; record_b] (u "staff.json")
           OSError
           ltac:(vm_compute; reflexivity)
           (collected_cons lower_table unit
              (serve (site index_page container_b))
              (quiet_parser (Some (u "staff.json")))
              (u "/p/a.htm") [u "/p/b.htm"] record_a [record_b] 0
              (after_requests [Parser_base_url])
              (after_requests [Parser_base_url; url_a])
              (after_requests [Parser_base_url; url_a; url_b])
              ltac:(vm_compute; reflexivity)
              (collected_cons lower_table unit
                 (serve (site index_page container_b))
                 (quiet_parser (Some (u "staff.json")))
                 (u "/p/b.htm") [] record_b [] 1
                 (after_requests [Parser_base_url; url_a])
                 (after_requests [Parser_base_url; url_a; url_b])
                 (after_requests [Parser_base_url; url_a; url_b])
                 ltac:(vm_compute; reflexivity)
                 (collected_nil lower_table unit
                    (serve (site index_page container_b))
                    (quiet_parser (Some (u "staff.json")))
                    (after_requests [Parser_base_url; url_a; url_b]))))
           ltac:(discriminate) ltac:(reflexivity)
           ltac:(vm_compute; discriminate) ltac:(reflexivity)).
Defined.

Lemma run_writes_stale_results_witness :
  printed_by
    (run_logged lower_table (serve (site empty_index_page container_b))
       always_open (quiet_parser (Some (u "staff.json")))) (used [])
  = empty_console
  /\ run_logged lower_table (serve (site empty_index_page container_b))
       always_open (quiet_parser (Some (u "staff.json"))) utf8_console
       (used []) []
     = (Ok tt,
        {| net := net (used [Parser_base_url]);
           requested := requested (used [Parser_base_url]);
           files := <[u "staff.json" :=
                        {| dump_data := [record_a];
                           dump_indent :=
                             if pretty_output
                                  (quiet_parser (Some (u "staff.json")))
                             then Some 2%nat else None;
                           dump_complete := true |}]>
                      (files (used [Parser_base_url]));
           results := Some [] |},
        [] ++ printed_by
                (run_logged lower_table
                   (serve (site empty_index_page container_b))
                   always_open (quiet_parser (Some (u "staff.json"))))
                (used [])).
Proof.
  split; [vm_compute; reflexivity|].
  exact (run_writes_stale_results lower_table unit
           (serve (site empty_index_page container_b)) always_open
           (quiet_parser (Some (u "staff.json"))) utf8_console
           (used []) (used [Parser_base_url]) [record_a] (u "staff.json") []
           ltac:(reflexivity) ltac:(reflexivity)
           ltac:(vm_compute; discriminate) ltac:(reflexivity)
           ltac:(vm_compute; reflexivity)
           ltac:(vm_compute; reflexivity)
           ltac:(vm_compute; reflexivity)).
Defined.

Lemma run_dump_fails_witness :
  printed_by
    (run_logged lower_table (serve (site index_page container_surrogate))
       always_open (quiet_parser (Some (u "staff.json")))) fresh
  = fetched_console
  /\ run_logged lower_table (serve (site index_page container_surrogate))
       always_open (quiet_parser (Some (u "staff.json"))) utf8_console
       fresh []
     = (Err UnicodeEncodeError,
        {| net := net (after_requests [Parser_base_url; url_a; url_b]);
           requested :=
             requested (after_requests [Parser_base_url; url_a; url_b]);
           files := <[u "staff.json" :=
                        {| dump_data := [record_a; record_surrogate];
                           dump_indent :=
                             if pretty_output
                                  (quiet_parser (Some (u "staff.json")))
                             then Some 2%nat else None;
                           dump_complete := false |}]>
                      (files (after_requests [Parser_base_url; url_a; url_b]));
           results := results fresh |},
        [] ++ printed_by
                (run_logged lower_table
                   (serve (site index_page container_surrogate))
                   always_open (quiet_parser (Some (u "staff.json"))))
                fresh).
Proof.
  split; [vm_compute; reflexivity|].
  exact (run_dump_fails lower_table unit
           (serve (site index_page container_surrogate))
           always_open (quiet_parser (Some (u "staff.json"))) utf8_console
           fresh (after_requests [Parser_base_url])
           (after_requests [Parser_base_url; url_a; url_b])
           [u "/p/a.htm"; u "/p/b.htm"] [record_a; record_surrogate]
           (u "staff.json") []
           ltac:(vm_compute; reflexivity)
           (collected_cons lower_table unit
              (serve (site index_page container_surrogate))
              (quiet_parser (Some (u "staff.json")))
              (u "/p/a.htm") [u "/p/b.htm"] record_a [record_surrogate] 0
              (after_requests [Parser_base_url])
              (after_requests [Parser_base_url; url_a])
              (after_requests [Parser_base_url; url_a; url_b])
              ltac:(vm_compute; reflexivity)
              (collected_cons lower_table unit
                 (serve (site index_page container_surrogate))
                 (quiet_parser (Some (u "staff.json")))
                 (u "/p/b.htm") [] record_surrogate [] 1
                 (after_requests [Parser_base_url; url_a])
                 (after_requests [Parser_base_url; url_a; url_b])
                 (after_requests [Parser_base_url; url_a; url_b])
                 ltac:(vm_compute; reflexivity)
                 (collected_nil lower_table unit
                    (serve (site index_page container_surrogate))
                    (quiet_parser (Some (u "staff.json")))
                    (after_requests [Parser_base_url; url_a; url_b]))))
           ltac:(reflexivity) ltac:(vm_compute; discriminate)
           ltac:(reflexivity) ltac:(vm_compute; reflexivity)
           ltac:(vm_compute; reflexivity)).
Defined.


Lemma run_other_files_untouched_witness :
  files (after_run (staff_file (None)))
    !! u "other.json"
  = files fresh !! u "other.json".
Proof.
  exact (run_other_files_untouched lower_table unit
           (serve (site index_page container_b)) always_open
           (quiet_parser (Some (u "staff.json"))) fresh
           (after_run (staff_file (None)))
           (Ok tt) (u "other.json")
           ltac:(vm_compute; reflexivity)
           ltac:(vm_compute; discriminate)).
Defined.

Lemma main_index_and_output_witness :
  (exists urls,
     requested (after_run (staff_file (Some 2%nat)))
     = requested fresh ++ Parser_base_url :: urls)
  /\ (forall p, ns_file_path sample_args <> Some p ->
        files (after_run (staff_file (Some 2%nat))) !! p
        = files fresh !! p).
Proof.
  exact (main_index_and_output lower_table unit
           (serve (site index_page container_b)) always_open sample_args fresh
           (after_run (staff_file (Some 2%nat)))
           (Ok tt) ltac:(vm_compute; reflexivity)).
Defined.


Lemma run_logged_silent_witness : ([] : list printed) = [].
Proof.
  exact (run_logged_silent lower_table unit
           (serve (site index_page container_b)) always_open silent_parser
           utf8_console fresh (after_run (staff_file None)) [] [] (Ok tt)
           ltac:(reflexivity) ltac:(vm_compute; reflexivity)).
Defined.

Lemma run_logged_verbose_records_witness :
  exists (new : list printed) (rs : list (gmap str value)),
    verbose_console = [] ++ new
    /\ results (after_run ∅) = Some rs
    /\ printed_records new = rs.
Proof.
  exact (run_logged_verbose_records lower_table unit
           (serve (site index_page container_b)) always_open verbose_parser
           utf8_console fresh (after_run ∅) [] verbose_console
           ltac:(reflexivity) ltac:(reflexivity)
           ltac:(vm_compute; reflexivity)).
Defined.

Lemma run_logged_default_lines_witness :
  exists new : list printed,
    default_console = [] ++ new
    /\ printed_records new = []
    /\ (Ok tt = Ok tt ->
        silent_mode (quiet_parser (Some (u "staff.json"))) = false ->
        exists rs, results (after_run (staff_file None)) = Some rs
          /\ length new
             = (5 + length rs
                + match file_path (quiet_parser (Some (u "staff.json"))) with
                  | Some (_ :: _) => 1
                  | _ => 0
                  end)%nat).
Proof.
  exact (run_logged_default_lines lower_table unit
           (serve (site index_page container_b)) always_open
           (quiet_parser (Some (u "staff.json"))) utf8_console fresh
           (after_run (staff_file None)) [] default_console (Ok tt)
           ltac:(reflexivity) ltac:(vm_compute; reflexivity)).
Defined.
